(** * tendril-connector-tally: the field-extraction engine and the report document

    A shallow embedding of [tendril/utils/connectors/tally/__init__.py]
    (classes [TallyElement] and [TallyReport]) and of
    [tendril/utils/connectors/tally/general.py] (class [TallyUnit]).

    Conventions of the embedding.
    - A Python exception is represented by its class; the arguments it
      carries are not modelled.  A computation that may raise returns
      [res A]: either [Ok a] or [Raise e].
    - Text is Python text: a [string] is read as a sequence of code points
      below 256, and [str(text)] is the identity.
    - A class-level table (a Python dict) is an association list in the
      order in which [iteritems] enumerates it; theorems hold for every
      order.
    - An instance [__dict__] is a [gmap string _]; [setattr] is insertion. *)

From Stdlib Require Import ZArith NArith Ascii.
From stdpp Require Import gmap strings list.

Local Set Warnings "-register-all".
Local Open Scope Z_scope.

(** ** Python: exceptions, results, text *)

Module Py.

(** The exception classes that the connector raises, catches, or can
    receive from the library calls it makes. *)
Inductive exn :=
| BaseException | KeyboardInterrupt | Exception_
| TypeError | AttributeError
| LookupError | IndexError | KeyError
| NameError | UnboundLocalError
| ArithmeticError | DecimalException | InvalidOperation
| ValueError | UnicodeError
| RuntimeError | NotImplementedError
| IOError | ConnectionError | TallyNotAvailable.

#[global] Instance exn_eq_dec : EqDecision exn.
Proof. solve_decision. Defined.

(** The direct base class.  [TallyNotAvailable] is declared in the
    connector as a subclass of requests' [ConnectionError]. *)
Definition base (e : exn) : option exn :=
  match e with
  | BaseException => None
  | KeyboardInterrupt => Some BaseException
  | Exception_ => Some BaseException
  | TypeError | AttributeError | LookupError | NameError
  | ArithmeticError | ValueError | RuntimeError | IOError => Some Exception_
  | IndexError | KeyError => Some LookupError
  | UnboundLocalError => Some NameError
  | DecimalException => Some ArithmeticError
  | InvalidOperation => Some DecimalException
  | UnicodeError => Some ValueError
  | NotImplementedError => Some RuntimeError
  | ConnectionError => Some IOError
  | TallyNotAvailable => Some ConnectionError
  end.

(** The class and its ancestors; no chain is longer than six. *)
Fixpoint mro_upto (fuel : nat) (e : exn) : list exn :=
  match fuel with
  | O => [e]
  | S fuel' =>
      match base e with
      | None => [e]
      | Some b => e :: mro_upto fuel' b
      end
  end.

Definition mro (e : exn) : list exn := mro_upto 6 e.

(** [isinstance e c]: an exception of class [e] is matched by
    [except c]. *)
Definition isinstance (e c : exn) : bool := bool_decide (c ∈ mro e).

(** [except (c1, c2, ...)]. *)
Definition matches (e : exn) (classes : list exn) : bool :=
  existsb (isinstance e) classes.

Inductive res (A : Type) : Type :=
| Ok (a : A)
| Raise (e : exn).
#[global] Arguments Ok {A} a.
#[global] Arguments Raise {A} e.

Definition bind {A B : Type} (m : res A) (k : A -> res B) : res B :=
  match m with
  | Ok a => k a
  | Raise e => Raise e
  end.

(** A list comprehension [[f(c) for c in l]]: elements are evaluated in
    order and the first exception ends the evaluation. *)
Fixpoint comprehension {A B : Type} (f : A -> res B) (l : list A)
  : res (list B) :=
  match l with
  | [] => Ok []
  | a :: l' =>
      bind (f a) (fun b =>
      bind (comprehension f l') (fun bs => Ok (b :: bs)))
  end.

(** [l[i]]. *)
Definition getitem {A : Type} (l : list A) (i : nat) : res A :=
  match l !! i with
  | Some a => Ok a
  | None => Raise IndexError
  end.

(** *** Text *)

(** [c.isspace()] for a code point below 256. *)
Definition isspace (a : ascii) : bool :=
  let n := N_of_ascii a in
  ((9 <=? n) && (n <=? 13) || (28 <=? n) && (n <=? 31)
   || (n =? 32) || (n =? 133) || (n =? 160))%N.

Fixpoint lstrip (s : string) : string :=
  match s with
  | String a s' => if isspace a then lstrip s' else s
  | EmptyString => EmptyString
  end.

Definition rstrip (s : string) : string :=
  String.rev (lstrip (String.rev s)).

(** [s.strip()]. *)
Definition strip (s : string) : string := rstrip (lstrip s).

(** [sep.join(l)]. *)
Definition join (sep : string) (l : list string) : string :=
  String.concat sep l.

Fixpoint map_chars (f : ascii -> ascii) (s : string) : string :=
  match s with
  | String a s' => String (f a) (map_chars f s')
  | EmptyString => EmptyString
  end.

(** [s.replace(old, new)] for the one-character [old] the connector
    uses; [new] may be empty. *)
Fixpoint replace (old : ascii) (new : string) (s : string) : string :=
  match s with
  | String a s' =>
      if Ascii.eqb a old then new +:+ replace old new s'
      else String a (replace old new s')
  | EmptyString => EmptyString
  end.

(** [c.lower()] for a code point below 256. *)
Definition lower_char (a : ascii) : ascii :=
  let n := N_of_ascii a in
  if ((65 <=? n) && (n <=? 90)
      || (192 <=? n) && (n <=? 222) && negb (n =? 215))%N
  then ascii_of_N (n + 32) else a.

Definition lower (s : string) : string := map_chars lower_char s.

(** *** [decimal.Decimal] *)

(** A [Decimal] as the library stores it: sign, coefficient and
    exponent, or one of the special values. *)
Inductive decimal :=
| Finite (sign : bool) (coefficient : N) (exponent : Z)
| Infinity (sign : bool)
| NaN (sign : bool) (signaling : bool) (diagnostic : N).

#[global] Instance decimal_eq_dec : EqDecision decimal.
Proof. solve_decision. Defined.

Definition digit (a : ascii) : option N :=
  let n := N_of_ascii a in
  if ((48 <=? n) && (n <=? 57))%N then Some (n - 48)%N else None.

(** The longest prefix of digits, read in base ten from the
    accumulator, with the number of digits read and the rest. *)
Fixpoint digits (acc : N) (count : nat) (s : string) : N * nat * string :=
  match s with
  | String a s' =>
      match digit a with
      | Some d => digits (10 * acc + d)%N (S count) s'
      | None => (acc, count, s)
      end
  | EmptyString => (acc, count, s)
  end.

Definition sign_prefix (s : string) : bool * string :=
  match s with
  | String "-" s' => (true, s')
  | String "+" s' => (false, s')
  | _ => (false, s)
  end.

(** The optional exponent, [E] with an optional sign and at least one
    digit, followed by the end of the text. *)
Definition exponent_suffix (s : string) : option Z :=
  match s with
  | EmptyString => Some 0
  | String a s' =>
      if String.eqb (lower (String a EmptyString)) "e" then
        let '(neg, s'') := sign_prefix s' in
        match digits 0 0 s'' with
        | (_, O, _) => None
        | (n, S _, EmptyString) =>
            Some (if neg then - Z.of_N n else Z.of_N n)
        | _ => None
        end
      else None
  end.

(** The numeric alternative of the library's pattern: digits with an
    optional point, at least one digit in all, then the optional
    exponent and the end of the text.  The exponent stored is the one
    written minus the number of digits after the point. *)
Definition parse_number (neg : bool) (s : string) : option decimal :=
  let '(i, ni, s1) := digits 0 0 s in
  let '(c, nf, s2) :=
    match s1 with
    | String "." s1' =>
        let '(c, nf, s2) := digits i 0 s1' in (c, Some nf, s2)
    | _ => (i, None, s1)
    end in
  match ni, nf with
  | O, None | O, Some O => None
  | _, _ =>
      match exponent_suffix s2 with
      | Some e => Some (Finite neg c (e - Z.of_nat (default O nf)))
      | None => None
      end
  end.

(** The special alternatives, in any letter case: [Inf], [Infinity],
    and [NaN] or [sNaN] followed by diagnostic digits. *)
Definition parse_special (neg : bool) (s : string) : option decimal :=
  let l := lower s in
  if String.eqb l "inf" || String.eqb l "infinity" then Some (Infinity neg)
  else
    let '(signaling, l') :=
      match l with
      | String "s" l' => (true, l')
      | _ => (false, l)
      end in
    match l' with
    | String "n" (String "a" (String "n" d)) =>
        match digits 0 0 d with
        | (n, _, EmptyString) => Some (NaN neg signaling n)
        | _ => None
        end
    | _ => None
    end.

(** [Decimal(value)] for a text [value]: surrounding whitespace is
    removed, and a text outside the pattern raises [InvalidOperation]. *)
Definition Decimal (value : string) : res decimal :=
  let '(neg, s) := sign_prefix (strip value) in
  match parse_number neg s with
  | Some d => Ok d
  | None =>
      match parse_special neg s with
      | Some d => Ok d
      | None => Raise InvalidOperation
      end
  end.

(** [int(value)] for a text [value]: surrounding whitespace is removed,
    then an optional sign and at least one digit (no digit separators);
    anything else raises [ValueError]. *)
Definition int (value : string) : res Z :=
  let '(neg, s) := sign_prefix (strip value) in
  match digits 0 0 s with
  | (_, O, _) => Raise ValueError
  | (n, S _, EmptyString) => Ok (if neg then - Z.of_N n else Z.of_N n)
  | _ => Raise ValueError
  end.

End Py.

Export Py.

Notation "x <- m ;; k" := (Py.bind m (fun x => k))
  (at level 100, m at next level, right associativity).

(** ** The parsed document (BeautifulSoup) *)

Module Soup.

(** A node of the parsed tree: a tag with its name, attribute mapping
    (from names to text) and ordered contents, or a run of text. *)
Inductive node :=
| Tag (name : string) (attrs : gmap string string) (contents : list node)
| NavigableString (s : string).

(** [n.text]: the text of all the strings below the node, in document
    order. *)
Fixpoint text (n : node) : string :=
  match n with
  | Tag _ _ cs => join "" (map text cs)
  | NavigableString s => s
  end.

Definition children (n : node) : list node :=
  match n with
  | Tag _ _ cs => cs
  | NavigableString _ => []
  end.

(** All the nodes below [n], in document order. *)
Fixpoint descendants (n : node) : list node :=
  match n with
  | Tag _ _ cs => flat_map (fun c => c :: descendants c) cs
  | NavigableString _ => []
  end.

(** A search by name matches the tags of that name. *)
Definition named (name : string) (n : node) : bool :=
  match n with
  | Tag nm _ _ => String.eqb nm name
  | NavigableString _ => false
  end.

(** [n.findChildren(name, recursive=...)], also spelled [findAll]. *)
Definition findChildren (n : node) (name : string) (recursive : bool)
  : list node :=
  List.filter (named name)
    (if recursive then descendants n else children n).

(** [n.find(name)]: the first match in the whole subtree, or [None]. *)
Definition find (n : node) (name : string) : option node :=
  head (findChildren n name true).

(** What a [TallyElement] is constructed from: the source passes either
    a node of the document or a piece of text ([candidates[0].text]). *)
Inductive soup :=
| Markup (n : node)
| PlainText (s : string).

(** [soup.findChildren(...)]: text has no such attribute. *)
Definition soup_findChildren (s : soup) (name : string) (recursive : bool)
  : res (list node) :=
  match s with
  | Markup (Tag _ _ _ as n) => Ok (findChildren n name recursive)
  | Markup (NavigableString _) | PlainText _ => Raise AttributeError
  end.

(** [soup.attrs[key]]. *)
Definition soup_attr (s : soup) (key : string) : res string :=
  match s with
  | Markup (Tag _ a _) =>
      match a !! key with
      | Some x => Ok x
      | None => Raise KeyError
      end
  | Markup (NavigableString _) | PlainText _ => Raise AttributeError
  end.

End Soup.

Export Soup.

(** ** [TallyElement]: the extraction engine *)

Module Element.

(** The contextual reference [ctx]: [None], or the owning report, which
    is identified here by its company name. *)
Definition context := option string.

(** The values an extracted attribute can hold. *)
Inductive pyval :=
| PNone
| PStr (s : string)
| PInt (z : Z)
| PBool (b : bool)
| PDecimal (d : decimal)
| PList (l : list pyval)
| PElement (_soup : soup) (_ctx : context) (dict : gmap string pyval).

(** The [valueType] of a rule, as the passes tell types apart: [str],
    [Decimal], a subclass of [TallyElement], or any other callable on
    text ([int], [float], [yesorno], ...). *)
Inductive vtype (C : Type) :=
| TStr
| TDecimal
| TElement (c : C)
| TCallable (f : string -> res pyval).
#[global] Arguments TStr {C}.
#[global] Arguments TDecimal {C}.
#[global] Arguments TElement {C} c.
#[global] Arguments TCallable {C} f.

(** The [valueType] of a [lists] rule: the pass only asks whether it is
    a subclass of [TallyElement]; any other callable is applied to the
    candidate node itself. *)
Inductive ltype (C : Type) :=
| LElement (c : C)
| LCallable (f : node -> res pyval).
#[global] Arguments LElement {C} c.
#[global] Arguments LCallable {C} f.

(** A rule [(v[0], v[1], v[2])] = (source name, value type, required),
    and a [lists] rule [(v[0], v[1])]. *)
Definition rule (C : Type) : Type := string * vtype C * bool.
Definition lrule (C : Type) : Type := string * ltype C.

(** A subclass of [TallyElement]: its five class-level tables. *)
Inductive tclass :=
| TallyElementClass
    (elements : list (string * rule tclass))
    (descendent_elements : list (string * rule tclass))
    (attrs : list (string * rule tclass))
    (lists : list (string * lrule tclass))
    (multilines : list (string * rule tclass)).

Definition elements (c : tclass) :=
  match c with TallyElementClass x _ _ _ _ => x end.
Definition descendent_elements (c : tclass) :=
  match c with TallyElementClass _ x _ _ _ => x end.
Definition attrs (c : tclass) :=
  match c with TallyElementClass _ _ x _ _ => x end.
Definition lists (c : tclass) :=
  match c with TallyElementClass _ _ _ x _ => x end.
Definition multilines (c : tclass) :=
  match c with TallyElementClass _ _ _ _ x => x end.

Definition decimal_zero : decimal := Finite false 0 0.

(** The exception classes named by the [except] clauses. *)
Definition element_errors : list exn :=
  [TypeError; AttributeError; IndexError; NameError; InvalidOperation].
Definition multiline_errors : list exn :=
  [TypeError; AttributeError; IndexError].

Section Passes.
Context {C : Type}.
(** [cls(soup, ctx)] for a subclass [cls] of [TallyElement]. *)
Variable construct : C -> soup -> context -> res pyval.

(** [v[1](text)] where the source calls the value type directly. *)
Definition call (ty : vtype C) (arg : string) : res pyval :=
  match ty with
  | TStr => Ok (PStr arg)
  | TDecimal => d <- Decimal arg ;; Ok (PDecimal d)
  | TElement c => construct c (PlainText arg) None
  | TCallable f => f arg
  end.

(** The [try] block of [_process_elements].  The test for zero
    candidates does nothing ([pass]); with no candidate it is
    [candidates[0]] that raises [IndexError]. *)
Definition elements_try (s : soup) (cx : context) (v : rule C)
  : res pyval :=
  let '(v0, v1, _) := v in
  candidates <- soup_findChildren s v0 false ;;
  match v1 with
  | TStr => Ok (PStr (join ":" (map text candidates)))
  | _ =>
      if (1 <? length candidates)%nat then Raise NameError
      else
        match v1 with
        | TElement c =>
            c0 <- getitem candidates 0 ;;
            construct c (PlainText (text c0)) cx
        | TDecimal =>
            c0 <- getitem candidates 0 ;;
            if String.eqb (strip (text c0)) "" then
              Ok (PDecimal decimal_zero)
            else call v1 (text c0)
        | _ =>
            c0 <- getitem candidates 0 ;;
            call v1 (text c0)
        end
  end.

(** The [except] clauses of the element passes: the listed classes
    follow the [required] flag, [ValueError] is raised again, and
    anything else is not caught. *)
Definition elements_except (v : rule C) (r : res pyval) : res pyval :=
  let '(_, _, v2) := v in
  match r with
  | Ok val => Ok val
  | Raise e =>
      if matches e element_errors then
        if negb v2 then Ok PNone else Raise e
      else if isinstance e ValueError then Raise e
      else Raise e
  end.

Definition element_value (s : soup) (cx : context) (v : rule C)
  : res pyval :=
  elements_except v (elements_try s cx v).

(** The [try] block of [_process_descendent_elements]: the same, without
    the case for a blank [Decimal]. *)
Definition descendent_try (s : soup) (cx : context) (v : rule C)
  : res pyval :=
  let '(v0, v1, _) := v in
  candidates <- soup_findChildren s v0 true ;;
  match v1 with
  | TStr => Ok (PStr (join ":" (map text candidates)))
  | _ =>
      if (1 <? length candidates)%nat then Raise NameError
      else
        match v1 with
        | TElement c =>
            c0 <- getitem candidates 0 ;;
            construct c (PlainText (text c0)) cx
        | _ =>
            c0 <- getitem candidates 0 ;;
            call v1 (text c0)
        end
  end.

Definition descendent_value (s : soup) (cx : context) (v : rule C)
  : res pyval :=
  elements_except v (descendent_try s cx v).

(** [_process_attrs]: the bare [except] catches every exception. *)
Definition attr_try (s : soup) (v : rule C) : res pyval :=
  let '(v0, v1, _) := v in
  a <- soup_attr s v0 ;;
  call v1 a.

Definition attr_except (v : rule C) (r : res pyval) : res pyval :=
  let '(_, _, v2) := v in
  match r with
  | Ok val => Ok val
  | Raise e => if negb v2 then Ok PNone else Raise e
  end.

Definition attr_value (s : soup) (v : rule C) : res pyval :=
  attr_except v (attr_try s v).

(** [_process_lists]: no [try] at all. *)
Definition list_item (cx : context) (ty : ltype C) (c : node)
  : res pyval :=
  match ty with
  | LElement cls => construct cls (Markup c) cx
  | LCallable f => f c
  end.

Definition list_value (s : soup) (cx : context) (v : lrule C)
  : res pyval :=
  let '(v0, v1) := v in
  candidates <- soup_findChildren s (v0 +:+ ".list") true ;;
  val <- comprehension (list_item cx v1) candidates ;;
  Ok (PList val).

(** ['\n'.join(lines)]: every line has to be text. *)
Definition as_str (x : pyval) : res string :=
  match x with
  | PStr s => Ok s
  | _ => Raise TypeError
  end.

Definition join_lines (lines : list pyval) : res pyval :=
  ss <- comprehension as_str lines ;;
  Ok (PStr (join (String "010" EmptyString) ss)).

(** The [try] block of [_process_multilines]. *)
Definition multiline_try (s : soup) (v : rule C) : res pyval :=
  let '(v0, v1, _) := v in
  candidates <- soup_findChildren s (v0 +:+ ".list") true ;;
  match candidates with
  | [] => Ok (PStr "")
  | _ :: _ :: _ => Raise Exception_
  | [c0] =>
      lines <- comprehension (fun l => call v1 (strip (text l)))
                 (findChildren c0 v0 true) ;;
      match lines with
      | [line] => Ok line
      | [] => Ok (PStr "")
      | _ => join_lines lines
      end
  end.

Definition multiline_except (v : rule C) (r : res pyval) : res pyval :=
  let '(_, _, v2) := v in
  match r with
  | Ok val => Ok val
  | Raise e =>
      if matches e multiline_errors then
        if negb v2 then Ok PNone else Raise e
      else if isinstance e ValueError then Raise e
      else Raise e
  end.

Definition multiline_value (s : soup) (v : rule C) : res pyval :=
  multiline_except v (multiline_try s v).

(** The loop shared by the passes: each rule's value is computed and
    stored with [setattr(self, k, val)]; an exception ends the loop. *)
Fixpoint for_each {V : Type} (value : V -> res pyval)
  (table : list (string * V)) (self : gmap string pyval)
  : res (gmap string pyval) :=
  match table with
  | [] => Ok self
  | (k, v) :: table' =>
      val <- value v ;;
      for_each value table' (<[k := val]> self)
  end.

Definition _process_attrs (table : list (string * rule C)) (s : soup) :=
  for_each (attr_value s) table.
Definition _process_elements (table : list (string * rule C))
  (s : soup) (cx : context) :=
  for_each (element_value s cx) table.
Definition _process_lists (table : list (string * lrule C))
  (s : soup) (cx : context) :=
  for_each (list_value s cx) table.
Definition _process_multilines (table : list (string * rule C))
  (s : soup) :=
  for_each (multiline_value s) table.
Definition _process_descendent_elements (table : list (string * rule C))
  (s : soup) (cx : context) :=
  for_each (descendent_value s cx) table.

(** [_populate], given the five tables of the class. *)
Definition _populate
  (t_elements t_descendent t_attrs : list (string * rule C))
  (t_lists : list (string * lrule C))
  (t_multilines : list (string * rule C))
  (s : soup) (cx : context) (self : gmap string pyval)
  : res (gmap string pyval) :=
  self <- _process_attrs t_attrs s self ;;
  self <- _process_elements t_elements s cx self ;;
  self <- _process_lists t_lists s cx self ;;
  self <- _process_multilines t_multilines s self ;;
  _process_descendent_elements t_descendent s cx self.

End Passes.

(** [TallyElement.__init__]: keep [soup] and [ctx], then [_populate]. *)
Fixpoint TallyElement (c : tclass) (s : soup) (cx : context) {struct c}
  : res pyval :=
  match c with
  | TallyElementClass els des ats lis mls =>
      self <- _populate TallyElement els des ats lis mls s cx ∅ ;;
      Ok (PElement s cx self)
  end.

(** A rule of the class whose value raises. *)
Definition raising_rule (c : tclass) (s : soup) (cx : context) : Prop :=
  (exists k v e, (k, v) ∈ attrs c /\
                 attr_value TallyElement s v = Raise e) \/
  (exists k v e, (k, v) ∈ elements c /\
                 element_value TallyElement s cx v = Raise e) \/
  (exists k v e, (k, v) ∈ lists c /\
                 list_value TallyElement s cx v = Raise e) \/
  (exists k v e, (k, v) ∈ multilines c /\
                 multiline_value TallyElement s v = Raise e) \/
  (exists k v e, (k, v) ∈ descendent_elements c /\
                 descendent_value TallyElement s cx v = Raise e).

(** [getattr(obj, name)] on an extracted element. *)
Definition getattr (obj : pyval) (name : string) : res pyval :=
  match obj with
  | PElement _ _ d =>
      match d !! name with
      | Some x => Ok x
      | None => Raise AttributeError
      end
  | _ => Raise AttributeError
  end.

End Element.

Export Element.

(** ** [general.py]: the unit master *)

Module General.

(** [int] as a value type. *)
Definition int_type : string -> res pyval :=
  fun s => z <- int s ;; Ok (PInt z).

Section TallyUnit.
(** [yesorno] comes from the connector's [utils] module and [float]
    from the language; both are taken as given callables on text. *)
Variables yesorno float : string -> res pyval.

Definition TallyUnit : tclass :=
  TallyElementClass
    [ ("name", ("name", TStr, true));
      ("originalname", ("originalname", TStr, false));
      ("decimalplaces", ("decimalplaces", TCallable int_type, true));
      ("issimpleunit", ("issimpleunit", TCallable yesorno, true));
      ("additionalunits", ("additionalunits", TStr, false));
      ("conversion", ("conversion", TCallable float, false)) ]
    [] [] [] [].
End TallyUnit.

End General.

(** ** [TallyReport]: acquisition, cache fallback, named collections *)

Module Report.

(** The class attributes a report type sets.  [_build_request_body] is
    abstract in [TallyReport] (it raises [NotImplementedError]); a report
    type overrides it, and only whether it returns is modelled. *)
Record report_class := {
  _container : option string;
  _cachename : option string;
  _content : gmap string (string * tclass);
  _build_request_body : res unit;
}.

(** [requests.structures.CaseInsensitiveDict]: an ordered store from the
    lowered key to the key as given and the value. *)
Definition cidict : Type := list (string * (string * pyval)).

Fixpoint ci_store (k : string) (kv : string * pyval) (d : cidict)
  : cidict :=
  match d with
  | [] => [(k, kv)]
  | (k', x) :: d' =>
      if String.eqb k' k then (k', kv) :: d'
      else (k', x) :: ci_store k kv d'
  end.

(** [val[key] = value]: the key has to have [lower()]. *)
Definition ci_setitem (key value : pyval) (d : cidict) : res cidict :=
  match key with
  | PStr s => Ok (ci_store (lower s) (s, value) d)
  | _ => Raise AttributeError
  end.

(** What can be observed of the outside world. *)
Inductive event :=
| Post
| CacheWrite (file : string)
| CacheRead (file : string).

(** A report instance and its surroundings: the instance attributes
    [_company_name] and [_soup], the collections stored on the instance
    by [__setattr__] (references into [heap]), the cache store [cachefs]
    (absent, or a mapping from file names to raw responses), and the
    events so far, latest first. *)
Record world := {
  _company_name : string;
  _soup : option node;
  collections : gmap string nat;
  heap : list cidict;
  cachefs : option (gmap string string);
  trace : list event;
}.

Definition set_soup (doc : option node) (w : world) : world :=
  {| _company_name := _company_name w; _soup := doc;
     collections := collections w; heap := heap w;
     cachefs := cachefs w; trace := trace w |}.

Definition log (ev : event) (w : world) : world :=
  {| _company_name := _company_name w; _soup := _soup w;
     collections := collections w; heap := heap w;
     cachefs := cachefs w; trace := ev :: trace w |}.

Definition write_cache (file content : string) (w : world) : world :=
  {| _company_name := _company_name w; _soup := _soup w;
     collections := collections w; heap := heap w;
     cachefs := (fun fs => <[file := content]> fs) <$> cachefs w;
     trace := CacheWrite file :: trace w |}.

(** [self.__setattr__(item, val)] for a freshly built mapping [val]. *)
Definition store_collection (item : string) (val : cidict) (w : world)
  : nat * world :=
  let r := length (heap w) in
  (r,
   {| _company_name := _company_name w; _soup := _soup w;
      collections := <[item := r]> (collections w);
      heap := heap w ++ [val];
      cachefs := cachefs w; trace := trace w |}).

(** The instance's collections and the mappings they refer to. *)
Definition stored (w : world) : gmap string nat * list cidict :=
  (collections w, heap w).

(** Truth value of an optional text: [None] and the empty text are
    false. *)
Definition truthy (s : option string) : bool :=
  match s with
  | Some (String _ _) => true
  | _ => false
  end.

Section Report.
(** The parser: the contents of the document parsed from a raw
    response.  [BeautifulSoup(...)] is the tag that holds them. *)
Variable parse : string -> list node.
Variable cls : report_class.

Definition BeautifulSoup (content : string) : node :=
  Tag "[document]" ∅ (parse content).

(** The [cachename] property. *)
Definition cachename (w : world) : option string :=
  if negb (truthy (_cachename cls)) then None
  else
    let company_name := _company_name w in
    let company_name := replace " " "_" company_name in
    let company_name := replace "." "" company_name in
    let company_name := replace "-" "" company_name in
    Some (default "" (_cachename cls) +:+ "." +:+ company_name).

(** [TallyXMLEngine.execute]; [post] is what [requests.post] does
    this time: the content of the response, or an exception. *)
Definition execute (post : res string) (cachename : option string)
  (w : world) : res node * world :=
  let w := log Post w in
  match post with
  | Raise e =>
      if isinstance e ConnectionError then (Raise TallyNotAvailable, w)
      else (Raise e, w)
  | Ok content =>
      let w :=
        match cachefs w, cachename with
        | Some _, Some (String _ _ as name) =>
            write_cache (name +:+ ".xml") content w
        | _, _ => w
        end in
      (Ok (BeautifulSoup content), w)
  end.

Definition _acquire_raw_response (post : res string) (w : world)
  : res unit * world :=
  match _build_request_body cls with
  | Raise e => (Raise e, w)
  | Ok _ =>
      match execute post (cachename w) w with
      | (Ok doc, w') => (Ok tt, set_soup (Some doc) w')
      | (Raise e, w') => (Raise e, w')
      end
  end.

(** Whatever goes wrong while reading the cache is turned into
    [TallyNotAvailable]. *)
Definition _acquire_cached_raw_response (w : world) : res unit * world :=
  match cachename w, cachefs w with
  | Some name, Some fs =>
      let w := log (CacheRead (name +:+ ".xml")) w in
      match fs !! (name +:+ ".xml") with
      | Some content => (Ok tt, set_soup (Some (BeautifulSoup content)) w)
      | None => (Raise TallyNotAvailable, w)
      end
  | _, _ => (Raise TallyNotAvailable, w)
  end.

(** The [soup] property; it returns [self._soup]. *)
Definition soup (post : res string) (w : world)
  : res (option node) * world :=
  match _soup w with
  | Some doc => (Ok (Some doc), w)
  | None =>
      match _acquire_raw_response post w with
      | (Ok _, w') => (Ok (_soup w'), w')
      | (Raise e, w') =>
          if isinstance e TallyNotAvailable then
            if bool_decide (is_Some (cachefs w')) && truthy (cachename w')
            then
              match _acquire_cached_raw_response w' with
              | (Ok _, w'') => (Ok (_soup w''), w'')
              | (Raise e', w'') => (Raise e', w'')
              end
            else (Raise e, w')
          else (Raise e, w')
      end
  end.

(** [for y in ys: val[y.name] = y]. *)
Fixpoint by_name (ys : list pyval) (val : cidict) : res cidict :=
  match ys with
  | [] => Ok val
  | y :: ys' =>
      name <- getattr y "name" ;;
      val <- ci_setitem name y val ;;
      by_name ys' val
  end.

(** [__getattr__]: called for a name that ordinary lookup does not
    find.  The result is a reference to the mapping built. *)
Definition __getattr__ (post : res string) (w : world) (item : string)
  : res nat * world :=
  match _content cls !! item with
  | None => (Raise AttributeError, w)
  | Some (tagname, factory) =>
      match soup post w with
      | (Raise e, w') => (Raise e, w')
      | (Ok doc, w') =>
          let scoped :=
            if truthy (_container cls) then
              match doc with
              | Some n => Ok (find n (default "" (_container cls)))
              | None => Raise AttributeError
              end
            else Ok doc in
          let built :=
            scope <- scoped ;;
            found <- match scope with
                     | Some n => Ok (findChildren n tagname true)
                     | None => Raise AttributeError
                     end ;;
            ys <- comprehension
                    (fun x => TallyElement factory (Markup x)
                                (Some (_company_name w')))
                    found ;;
            by_name ys [] in
          match built with
          | Raise e => (Raise e, w')
          | Ok val =>
              let '(r, w'') := store_collection item val w' in
              (Ok r, w'')
          end
      end
  end.

(** [report.item] for a collection name: the instance attribute when
    it has been stored, [__getattr__] otherwise.  (Names defined on
    the class itself, such as [soup], are not collection names.) *)
Definition access (post : res string) (w : world) (item : string)
  : res nat * world :=
  match collections w !! item with
  | Some r => (Ok r, w)
  | None => __getattr__ post w item
  end.

End Report.

End Report.

(** ** Sample classes and documents *)

Module Samples.

Definition tag (name : string) (contents : list node) : node :=
  Tag name ∅ contents.
Definition leaf (name text : string) : node :=
  Tag name ∅ [NavigableString text].

(** A ledger entry with an optional and a required amount, a
    classification read from an attribute, a narration held in a list
    container, and a balance searched among all descendants. *)
Definition LedgerEntry : tclass :=
  TallyElementClass
    [ ("amount", ("amount", TDecimal, false));
      ("rate", ("rate", TDecimal, true)) ]
    [ ("closingbalance", ("closingbalance", TDecimal, true)) ]
    [ ("count", ("count", TCallable General.int_type, false)) ]
    []
    [ ("narration", ("narration", TStr, true)) ].

(** A nested element type and its owner. *)
Definition Address : tclass :=
  TallyElementClass [ ("city", ("city", TStr, true)) ] [] [] [] [].

Definition Party : tclass :=
  TallyElementClass
    [ ("address", ("address", TElement Address, true)) ]
    [] []
    [ ("addresses", ("address", LElement Address)) ]
    [].

Definition two_amounts : node :=
  tag "entry" [leaf "amount" "1"; leaf "amount" "2"].

Definition two_narrations : node :=
  tag "entry" [tag "narration.list" [leaf "narration" "a"];
               tag "narration.list" [leaf "narration" "b"]].

Definition blank_rate : node :=
  tag "entry" [leaf "rate" "  "; leaf "closingbalance" " "].

Definition bad_count : node :=
  Tag "entry" {[ "count" := "abc" ]} [].

Definition count_child : node := tag "entry" [leaf "count" "abc"].

Definition count_items : node :=
  tag "entry" [leaf "count.list" "1"; leaf "count.list" "x"].

Definition int_of_node : node -> res pyval :=
  fun n => General.int_type (text n).

Definition empty_entry : node := tag "entry" [].

Definition party_doc : node :=
  tag "party" [tag "address" [leaf "city" "Pune"]].

Definition party_list_doc : node :=
  tag "party" [tag "address.list" [leaf "city" "Pune"]].


Definition names_doc : node :=
  tag "unit" [leaf "name" "Nos"; leaf "name" "Pcs"].

(** A report of unit masters.  [yes_no] and [no_float] stand for the
    callables [yesorno] and [float] of the unit master; [parse] stands
    for the parser and yields the same two units for every response. *)
Definition yes_no : string -> res pyval :=
  fun s => Ok (PBool (String.eqb (lower (strip s)) "yes")).
Definition no_float : string -> res pyval :=
  fun _ => Raise ValueError.

Definition Unit : tclass := General.TallyUnit yes_no no_float.

Definition unit_node (name places : string) : node :=
  tag "unit" [leaf "name" name; leaf "decimalplaces" places;
              leaf "issimpleunit" "Yes"].

Definition parse (content : string) : list node :=
  [tag "envelope" [tag "body" [unit_node "Nos" "0"; unit_node "Kg" "3"]]].

Definition UnitsReport : Report.report_class :=
  {| Report._container := Some "body";
     Report._cachename := Some "units";
     Report._content := {[ "units" := ("unit", Unit) ]};
     Report._build_request_body := Ok tt |}.

Definition UncachedReport : Report.report_class :=
  {| Report._container := Some "body";
     Report._cachename := None;
     Report._content := {[ "units" := ("unit", Unit) ]};
     Report._build_request_body := Ok tt |}.

Definition fresh : Report.world :=
  {| Report._company_name := "Acme Traders";
     Report._soup := None;
     Report.collections := ∅;
     Report.heap := [];
     Report.cachefs := Some {[ "units.Acme_Traders.xml" := "cached" ]};
     Report.trace := [] |}.

End Samples.

(** ** Views of extracted elements and of the report's mappings *)

Module Views.

(** The [company_name] property of [TallyElement]:
    [self._ctx.company_name]; without a context there is nothing to ask. *)
Definition company_name (obj : pyval) : res string :=
  match obj with
  | PElement _ (Some name) _ => Ok name
  | _ => Raise AttributeError
  end.

(** [CaseInsensitiveDict.__getitem__]: [self._store[key.lower()][1]]. *)
Fixpoint ci_lookup (k : string) (d : Report.cidict)
  : option (string * pyval) :=
  match d with
  | [] => None
  | (k', x) :: d' => if String.eqb k' k then Some x else ci_lookup k d'
  end.

Definition ci_getitem (key : string) (d : Report.cidict) : res pyval :=
  match ci_lookup (lower key) d with
  | Some (_, value) => Ok value
  | None => Raise KeyError
  end.



(** Every collection stored on the instance refers to a mapping that
    exists. *)
Definition valid_refs (w : Report.world) : Prop :=
  forall item r, Report.collections w !! item = Some r ->
                 (r < length (Report.heap w))%nat.


End Views.

(** ** Building the request (lxml [etree]) *)

Module Request.




End Request.

(** ** More sample classes and documents *)

Module MoreSamples.



(** Three list containers, one of them nested. *)
Definition items_doc : node :=
  Samples.tag "party"
    [Samples.tag "address.list" [Samples.leaf "city" "C"];
     Samples.tag "group"
       [Samples.tag "address.list" [Samples.leaf "city" "A"]];
     Samples.tag "address.list" [Samples.leaf "city" "B"]].



(** A report whose container is not in the responses, and one whose
    collection matches no node. *)
Definition MissingContainer : Report.report_class :=
  {| Report._container := Some "collection";
     Report._cachename := None;
     Report._content := {[ "units" := ("unit", Samples.Unit) ]};
     Report._build_request_body := Ok tt |}.

Definition NoMatch : Report.report_class :=
  {| Report._container := Some "body";
     Report._cachename := None;
     Report._content := {[ "ledgers" := ("ledger", Samples.Unit) ]};
     Report._build_request_body := Ok tt |}.

Definition acquired : Report.world :=
  Report.set_soup (Some (Report.BeautifulSoup Samples.parse "response"))
    Samples.fresh.

End MoreSamples.

(** * Properties *)

(** ** Exceptions and handlers *)

Lemma value_error_not_element_error (e : exn) :
  isinstance e ValueError = true -> matches e element_errors = false.
Proof. destruct e; vm_compute; congruence. Qed.

Lemma value_error_not_multiline_error (e : exn) :
  isinstance e ValueError = true -> matches e multiline_errors = false.
Proof. destruct e; vm_compute; congruence. Qed.


(** The first element that raises decides the comprehension. *)
Lemma comprehension_first_raise {A B : Type} (f : A -> res B)
  (pre post : list A) (a : A) (e : exn) :
  Forall (fun x => exists b, f x = Ok b) pre -> f a = Raise e ->
  comprehension f (pre ++ a :: post) = Raise e.
Proof.
  induction 1 as [|x pre [b Hb] _ IH]; intros Ha; simpl.
  - by rewrite Ha.
  - by rewrite Hb, IH.
Qed.

Lemma comprehension_raise {A B : Type} (f : A -> res B) (l : list A)
  (a : A) (e : exn) :
  a ∈ l -> f a = Raise e -> exists e', comprehension f l = Raise e'.
Proof.
  induction 1 as [a l|a x l _ IH]; intros Ha; simpl.
  - rewrite Ha. eauto.
  - destruct (f x); simpl; [|eauto].
    destruct (IH Ha) as [e' ->]. eauto.
Qed.

(** ** The loop over a table *)

Lemma for_each_raise {V : Type} (value : V -> res pyval)
  (table : list (string * V)) (self : gmap string pyval)
  (k : string) (v : V) (e : exn) :
  (k, v) ∈ table -> value v = Raise e ->
  exists e', for_each value table self = Raise e'.
Proof.
  intros Hin Hv. revert self.
  induction table as [|[k' v'] table IH]; intros self; simpl.
  - by apply elem_of_nil in Hin.
  - apply elem_of_cons in Hin as [[= <- <-]|Hin].
    + rewrite Hv. eauto.
    + destruct (value v'); simpl; eauto.
Qed.

(** With distinct keys, as in a Python dict, a successful loop leaves
    each rule's value under its key. *)
Lemma for_each_lookup {V : Type} (value : V -> res pyval)
  (table : list (string * V)) (self self' : gmap string pyval)
  (k : string) (v : V) :
  NoDup table.*1 -> (k, v) ∈ table ->
  for_each value table self = Ok self' ->
  exists x, value v = Ok x /\ self' !! k = Some x.
Proof.
  intros Hnd Hin. revert self.
  induction table as [|[k' v'] table IH]; intros self; simpl in *.
  { by apply elem_of_nil in Hin. }
  apply NoDup_cons in Hnd as [Hk Hnd].
  destruct (value v') as [x|e] eqn:Hv; simpl; [|discriminate].
  apply elem_of_cons in Hin as [[= <- <-]|Hin]; [|by apply IH].
  intros H. exists x. split; [done|].
  clear Hv IH Hnd. revert self H.
  induction table as [|[k2 v2] table IH2]; intros self; simpl.
  - intros [= <-]. by rewrite lookup_insert_eq.
  - destruct (value v2) as [x2|]; simpl; [|discriminate].
    intros H. apply not_elem_of_cons in Hk as [Hne Hk]. simpl in Hne.
    rewrite insert_insert_ne in H by done.
    by apply (IH2 Hk _ H).
Qed.

(** ** Extraction of a whole element *)

Lemma TallyElement_unfold (c : tclass) (s : soup) (cx : context) :
  TallyElement c s cx =
  (self <- _populate TallyElement (elements c) (descendent_elements c)
             (attrs c) (lists c) (multilines c) s cx ∅ ;;
   Ok (PElement s cx self)).
Proof. by destruct c. Qed.

(** No element is built when one of its rules raises: some exception
    leaves the constructor. *)
Lemma TallyElement_raises (c : tclass) (s : soup) (cx : context) :
  raising_rule c s cx -> exists e, TallyElement c s cx = Raise e.
Proof.
  intros H. rewrite TallyElement_unfold. unfold _populate.
  unfold _process_attrs, _process_elements, _process_lists,
    _process_multilines, _process_descendent_elements.
  destruct H as [(k & v & e & Hin & Hv)|H].
  { destruct (for_each_raise _ _ ∅ _ _ _ Hin Hv) as [e' ->]. simpl. eauto. }
  destruct (for_each (attr_value _ s) _ _) as [d1|]; simpl; [|eauto].
  destruct H as [(k & v & e & Hin & Hv)|H].
  { destruct (for_each_raise _ _ d1 _ _ _ Hin Hv) as [e' ->]. simpl. eauto. }
  destruct (for_each (element_value _ s cx) _ _) as [d2|]; simpl; [|eauto].
  destruct H as [(k & v & e & Hin & Hv)|H].
  { destruct (for_each_raise _ _ d2 _ _ _ Hin Hv) as [e' ->]. simpl. eauto. }
  destruct (for_each (list_value _ s cx) _ _) as [d3|]; simpl; [|eauto].
  destruct H as [(k & v & e & Hin & Hv)|H].
  { destruct (for_each_raise _ _ d3 _ _ _ Hin Hv) as [e' ->]. simpl. eauto. }
  destruct (for_each (multiline_value _ s) _ _) as [d4|]; simpl; [|eauto].
  destruct H as (k & v & e & Hin & Hv).
  destruct (for_each_raise _ _ d4 _ _ _ Hin Hv) as [e' ->]. simpl. eauto.
Qed.

(** ** Ambiguous matches *)

Lemma two_or_more {A : Type} (l : list A) :
  (2 <= length l)%nat -> (1 <? length l)%nat = true.
Proof. intros H. apply Nat.ltb_lt. lia. Qed.

Lemma elements_try_ambiguous (name : string) (a : gmap string string)
  (cs : list node) (cx : context) (v0 : string) (v1 : vtype tclass)
  (v2 : bool) :
  v1 <> TStr ->
  (2 <= length (findChildren (Tag name a cs) v0 false))%nat ->
  elements_try TallyElement (Markup (Tag name a cs)) cx (v0, v1, v2)
  = Raise NameError.
Proof.
  intros Hty Hlen. unfold elements_try. simpl.
  rewrite (two_or_more _ Hlen). by destruct v1.
Qed.

Lemma descendent_try_ambiguous (name : string) (a : gmap string string)
  (cs : list node) (cx : context) (v0 : string) (v1 : vtype tclass)
  (v2 : bool) :
  v1 <> TStr ->
  (2 <= length (findChildren (Tag name a cs) v0 true))%nat ->
  descendent_try TallyElement (Markup (Tag name a cs)) cx (v0, v1, v2)
  = Raise NameError.
Proof.
  intros Hty Hlen. unfold descendent_try. simpl.
  rewrite (two_or_more _ Hlen). by destruct v1.
Qed.

Lemma multiline_try_ambiguous (name : string) (a : gmap string string)
  (cs : list node) (v0 : string) (v1 : vtype tclass) (v2 : bool) :
  (2 <= length (findChildren (Tag name a cs) (v0 +:+ ".list") true))%nat ->
  multiline_try TallyElement (Markup (Tag name a cs)) (v0, v1, v2)
  = Raise Exception_.
Proof.
  intros Hlen. unfold multiline_try. simpl.
  destruct (findChildren _ _ _) as [|c0 [|c1 l]]; simpl in *; [lia..|done].
Qed.

(** C1, as the code has it.  On a document node with two or more
    matching candidates: a [multilines] rule raises the ambiguous-match
    error ([Exception]) whatever its [required] flag, and no element is
    built.  An [elements] or [descendent_elements] rule of a value type
    other than [str] raises the ambiguous-match error ([NameError]) when
    it is required; when it is optional the handler catches the
    [NameError] and the attribute resolves to [None]. *)
Theorem ambiguous_match_policy (name : string) (a : gmap string string)
  (cs : list node) (cx : context) (v0 : string) (v1 : vtype tclass)
  (v2 : bool) :
  let doc := Tag name a cs in
  ((2 <= length (findChildren doc (v0 +:+ ".list") true))%nat ->
   multiline_value TallyElement (Markup doc) (v0, v1, v2) = Raise Exception_ /\
   forall c k, (k, (v0, v1, v2)) ∈ multilines c ->
               exists e, TallyElement c (Markup doc) cx = Raise e) /\
  (v1 <> TStr -> (2 <= length (findChildren doc v0 false))%nat ->
   element_value TallyElement (Markup doc) cx (v0, v1, v2)
   = if v2 then Raise NameError else Ok PNone) /\
  (v1 <> TStr -> (2 <= length (findChildren doc v0 true))%nat ->
   descendent_value TallyElement (Markup doc) cx (v0, v1, v2)
   = if v2 then Raise NameError else Ok PNone).
Proof.
  intros doc. subst doc. split; [|split].
  - intros Hlen.
    assert (multiline_value TallyElement (Markup (Tag name a cs))
              (v0, v1, v2) = Raise Exception_) as Hv.
    { unfold multiline_value. rewrite multiline_try_ambiguous by done.
      by destruct v2. }
    split; [done|]. intros c k Hin. apply TallyElement_raises.
    do 3 right. left. eauto.
  - intros Hty Hlen. unfold element_value.
    rewrite elements_try_ambiguous by done. by destruct v2.
  - intros Hty Hlen. unfold descendent_value.
    rewrite descendent_try_ambiguous by done. by destruct v2.
Qed.

Lemma ambiguous_match_policy_witness :
  multiline_value TallyElement (Markup Samples.two_narrations)
    ("narration", TStr, true) = Raise Exception_ /\
  (exists e, TallyElement Samples.LedgerEntry (Markup Samples.two_narrations)
               None = Raise e) /\
  element_value TallyElement (Markup Samples.two_amounts) None
    ("amount", TDecimal, true) = Raise NameError /\
  descendent_value TallyElement (Markup Samples.two_amounts) None
    ("amount", TDecimal, false) = Ok PNone.
Proof.
  destruct (ambiguous_match_policy "entry" ∅
              (children Samples.two_narrations) None "narration"
              (@TStr tclass) true) as (Hm & _ & _).
  destruct Hm as [Hv Hc]; [vm_compute; lia|].
  destruct (ambiguous_match_policy "entry" ∅
              (children Samples.two_amounts) None "amount"
              (@TDecimal tclass) true) as (_ & He & _).
  destruct (ambiguous_match_policy "entry" ∅
              (children Samples.two_amounts) None "amount"
              (@TDecimal tclass) false) as (_ & _ & Hd).
  split; [exact Hv|]. split.
  { apply (Hc Samples.LedgerEntry "narration"). vm_compute. left. }
  split.
  - apply He; [discriminate|vm_compute; lia].
  - apply Hd; [discriminate|vm_compute; lia].
Defined.

(** C1 as stated fails: an optional [elements] rule with two matching
    children does not raise; the attribute is [None]. *)
Lemma ambiguous_optional_element_is_none :
  length (findChildren Samples.two_amounts "amount" false) = 2%nat /\
  element_value TallyElement (Markup Samples.two_amounts) None
    ("amount", TDecimal, false) = Ok PNone.
Proof. split; reflexivity. Qed.

(** ** Value-validation failures *)

(** C2, as the code has it.  A [ValueError] raised in the [try] block of
    an [elements], [descendent_elements] or [multilines] rule leaves the
    rule's extraction whatever the [required] flag, and so does the
    exception of the first list item that fails in the [lists] pass; no
    element is then built.  In the [attrs] pass the bare [except] catches
    it as well: it is raised again for a required rule and replaced by
    [None] for an optional one. *)
Theorem value_error_policy (s : soup) (cx : context) (v0 : string)
  (v1 : vtype tclass) (v2 : bool) (e : exn) :
  isinstance e ValueError = true ->
  let v := (v0, v1, v2) in
  (elements_try TallyElement s cx v = Raise e ->
   element_value TallyElement s cx v = Raise e /\
   forall c k, (k, v) ∈ elements c ->
               exists e', TallyElement c s cx = Raise e') /\
  (descendent_try TallyElement s cx v = Raise e ->
   descendent_value TallyElement s cx v = Raise e /\
   forall c k, (k, v) ∈ descendent_elements c ->
               exists e', TallyElement c s cx = Raise e') /\
  (multiline_try TallyElement s v = Raise e ->
   multiline_value TallyElement s v = Raise e /\
   forall c k, (k, v) ∈ multilines c ->
               exists e', TallyElement c s cx = Raise e') /\
  (forall (w1 : ltype tclass) pre x post,
     soup_findChildren s (v0 +:+ ".list") true = Ok (pre ++ x :: post) ->
     Forall (fun y => exists b, list_item TallyElement cx w1 y = Ok b) pre ->
     list_item TallyElement cx w1 x = Raise e ->
     list_value TallyElement s cx (v0, w1) = Raise e /\
     forall c k, (k, (v0, w1)) ∈ lists c ->
                 exists e', TallyElement c s cx = Raise e') /\
  (attr_try TallyElement s v = Raise e ->
   attr_value TallyElement s v = if v2 then Raise e else Ok PNone).
Proof.
  intros He v. subst v.
  pose proof (value_error_not_element_error e He) as Hne.
  pose proof (value_error_not_multiline_error e He) as Hnm.
  repeat split.
  - unfold element_value, elements_except. by rewrite H, Hne, He.
  - intros c k Hin. apply TallyElement_raises. right. left.
    exists k, (v0, v1, v2), e. split; [done|].
    unfold element_value, elements_except. by rewrite H, Hne, He.
  - unfold descendent_value, elements_except. by rewrite H, Hne, He.
  - intros c k Hin. apply TallyElement_raises. do 4 right.
    exists k, (v0, v1, v2), e. split; [done|].
    unfold descendent_value, elements_except. by rewrite H, Hne, He.
  - unfold multiline_value, multiline_except. by rewrite H, Hnm, He.
  - intros c k Hin. apply TallyElement_raises. do 3 right. left.
    exists k, (v0, v1, v2), e. split; [done|].
    unfold multiline_value, multiline_except. by rewrite H, Hnm, He.
  - unfold list_value. rewrite H. simpl.
    by rewrite (comprehension_first_raise _ pre post x e).
  - intros c k Hin. apply TallyElement_raises. do 2 right. left.
    exists k, (v0, w1), e. split; [done|].
    unfold list_value. rewrite H. simpl.
    by rewrite (comprehension_first_raise _ pre post x e).
  - intros H. unfold attr_value. rewrite H. simpl. by destruct v2.
Qed.

Lemma value_error_policy_witness :
  element_value TallyElement (Markup Samples.count_child) None
    ("count", TCallable General.int_type, false) = Raise ValueError /\
  list_value TallyElement (Markup Samples.count_items) None
    ("count", LCallable Samples.int_of_node) = Raise ValueError /\
  attr_value TallyElement (Markup Samples.bad_count)
    ("count", TCallable General.int_type, true) = Raise ValueError.
Proof.
  destruct (value_error_policy (Markup Samples.count_child) None "count"
              (TCallable General.int_type) false ValueError eq_refl)
    as (He & _).
  destruct (value_error_policy (Markup Samples.count_items) None "count"
              (@TStr tclass) false ValueError eq_refl)
    as (_ & _ & _ & Hl & _).
  destruct (value_error_policy (Markup Samples.bad_count) None "count"
              (TCallable General.int_type) true ValueError eq_refl)
    as (_ & _ & _ & _ & Ha).
  split; [|split].
  - apply He. reflexivity.
  - apply (Hl (LCallable Samples.int_of_node)
             [Samples.leaf "count.list" "1"] (Samples.leaf "count.list" "x")
             []).
    + reflexivity.
    + repeat constructor. by exists (PInt 1).
    + reflexivity.
  - apply Ha. reflexivity.
Defined.

(** C2 as stated fails in the [attrs] pass: the [ValueError] of [int] on
    the attribute text of an optional rule is replaced by [None]. *)
Lemma attr_value_error_is_none :
  attr_try TallyElement (Markup Samples.bad_count)
    ("count", TCallable General.int_type, false) = Raise ValueError /\
  attr_value TallyElement (Markup Samples.bad_count)
    ("count", TCallable General.int_type, false) = Ok PNone.
Proof. split; reflexivity. Qed.

(** ** Missing source nodes *)

(** C5, as the code has it.  On a document node without the rule's
    source: an [attrs] rule, and an [elements] or [descendent_elements]
    rule of a value type other than [str], resolve to [None] when
    optional and raise the lookup error ([KeyError], [IndexError]) when
    required; an [elements] or [descendent_elements] rule of type [str]
    and a [multilines] rule resolve to the empty text whatever the
    [required] flag. *)
Theorem missing_source_policy (name : string) (a : gmap string string)
  (cs : list node) (cx : context) (v0 : string) (v1 : vtype tclass)
  (v2 : bool) :
  let doc := Tag name a cs in
  let v := (v0, v1, v2) in
  (a !! v0 = None ->
   attr_value TallyElement (Markup doc) v
   = if v2 then Raise KeyError else Ok PNone) /\
  (findChildren doc v0 false = [] ->
   element_value TallyElement (Markup doc) cx v
   = match v1 with
     | TStr => Ok (PStr "")
     | _ => if v2 then Raise IndexError else Ok PNone
     end) /\
  (findChildren doc v0 true = [] ->
   descendent_value TallyElement (Markup doc) cx v
   = match v1 with
     | TStr => Ok (PStr "")
     | _ => if v2 then Raise IndexError else Ok PNone
     end) /\
  (findChildren doc (v0 +:+ ".list") true = [] ->
   multiline_value TallyElement (Markup doc) v = Ok (PStr "")) /\
  (v2 = true ->
   forall c k,
     ((k, v) ∈ attrs c /\ a !! v0 = None) \/
     ((k, v) ∈ elements c /\ v1 <> TStr /\
      findChildren doc v0 false = []) \/
     ((k, v) ∈ descendent_elements c /\ v1 <> TStr /\
      findChildren doc v0 true = []) ->
     exists e, TallyElement c (Markup doc) cx = Raise e).
Proof.
  intros doc v. subst doc v.
  assert (a !! v0 = None ->
          attr_value TallyElement (Markup (Tag name a cs)) (v0, v1, v2)
          = if v2 then Raise KeyError else Ok PNone) as Ha.
  { intros H. unfold attr_value, attr_try. simpl. rewrite H. simpl.
    by destruct v2. }
  assert (findChildren (Tag name a cs) v0 false = [] ->
          element_value TallyElement (Markup (Tag name a cs)) cx (v0, v1, v2)
          = match v1 with
            | TStr => Ok (PStr "")
            | _ => if v2 then Raise IndexError else Ok PNone
            end) as He.
  { intros H. unfold element_value, elements_try. simpl. rewrite H.
    by destruct v1, v2. }
  assert (findChildren (Tag name a cs) v0 true = [] ->
          descendent_value TallyElement (Markup (Tag name a cs)) cx
            (v0, v1, v2)
          = match v1 with
            | TStr => Ok (PStr "")
            | _ => if v2 then Raise IndexError else Ok PNone
            end) as Hd.
  { intros H. unfold descendent_value, descendent_try. simpl. rewrite H.
    by destruct v1, v2. }
  repeat split; try done.
  - intros H. unfold multiline_value, multiline_try. simpl. by rewrite H.
  - intros -> c k Hrule. apply TallyElement_raises.
    destruct Hrule as [[Hin H]|[(Hin & Hty & H)|(Hin & Hty & H)]].
    + left. exists k, (v0, v1, true), KeyError. by rewrite Ha.
    + right. left. exists k, (v0, v1, true), IndexError.
      rewrite He by done. by destruct v1.
    + do 4 right. exists k, (v0, v1, true), IndexError.
      rewrite Hd by done. by destruct v1.
Qed.

Lemma missing_source_policy_witness :
  attr_value TallyElement (Markup Samples.empty_entry)
    ("count", TCallable General.int_type, true) = Raise KeyError /\
  element_value TallyElement (Markup Samples.empty_entry) None
    ("rate", TDecimal, true) = Raise IndexError /\
  descendent_value TallyElement (Markup Samples.empty_entry) None
    ("closingbalance", TDecimal, false) = Ok PNone /\
  multiline_value TallyElement (Markup Samples.empty_entry)
    ("narration", TStr, false) = Ok (PStr "") /\
  (exists e, TallyElement Samples.LedgerEntry (Markup Samples.empty_entry)
               None = Raise e).
Proof.
  destruct (missing_source_policy "entry" ∅ [] None "count"
              (TCallable General.int_type) true) as (Ha & _).
  destruct (missing_source_policy "entry" ∅ [] None "rate"
              (@TDecimal tclass) true) as (_ & He & _ & _ & Hc).
  destruct (missing_source_policy "entry" ∅ [] None "closingbalance"
              (@TDecimal tclass) false) as (_ & _ & Hd & _).
  destruct (missing_source_policy "entry" ∅ [] None "narration"
              (@TStr tclass) false) as (_ & _ & _ & Hm & _).
  split; [|split; [|split; [|split]]].
  - apply Ha. reflexivity.
  - apply He. reflexivity.
  - apply Hd. reflexivity.
  - apply Hm. reflexivity.
  - apply (Hc eq_refl Samples.LedgerEntry "rate"). right. left.
    split; [|split; [discriminate|reflexivity]].
    vm_compute. right. left.
Defined.

(** C5 as stated fails for required rules that concatenate text: the
    required [name] rule of [TallyUnit], of type [str], and a required
    [multilines] rule both resolve to the empty text on a node without
    their source, and nothing is raised. *)
Lemma required_text_rule_is_empty :
  findChildren Samples.empty_entry "name" false = [] /\
  element_value TallyElement (Markup Samples.empty_entry) None
    ("name", TStr, true) = Ok (PStr "") /\
  findChildren Samples.empty_entry "narration.list" true = [] /\
  multiline_value TallyElement (Markup Samples.empty_entry)
    ("narration", TStr, true) = Ok (PStr "").
Proof. repeat split; reflexivity. Qed.

(** ** Text rules *)

(** C8.  An [elements] or [descendent_elements] rule of type [str]
    yields the texts of all the matching candidates joined by [":"],
    whatever their number and whatever the [required] flag; with no
    candidate this is the empty text.  When the pass completes, that
    text is the attribute stored under the rule's key. *)
Theorem str_rule_joins_candidates (name : string) (a : gmap string string)
  (cs : list node) (cx : context) (v0 : string) (v2 : bool) :
  let doc := Tag name a cs in
  element_value TallyElement (Markup doc) cx (v0, TStr, v2)
  = Ok (PStr (join ":" (map text (findChildren doc v0 false)))) /\
  descendent_value TallyElement (Markup doc) cx (v0, TStr, v2)
  = Ok (PStr (join ":" (map text (findChildren doc v0 true)))) /\
  (findChildren doc v0 false = [] ->
   element_value TallyElement (Markup doc) cx (v0, TStr, v2)
   = Ok (PStr "")) /\
  (findChildren doc v0 true = [] ->
   descendent_value TallyElement (Markup doc) cx (v0, TStr, v2)
   = Ok (PStr "")) /\
  (forall table k self self',
     NoDup table.*1 -> (k, (v0, TStr, v2)) ∈ table ->
     (_process_elements TallyElement table (Markup doc) cx self = Ok self' ->
      self' !! k
      = Some (PStr (join ":" (map text (findChildren doc v0 false))))) /\
     (_process_descendent_elements TallyElement table (Markup doc) cx self
      = Ok self' ->
      self' !! k
      = Some (PStr (join ":" (map text (findChildren doc v0 true)))))).
Proof.
  intros doc. subst doc.
  assert (element_value TallyElement (Markup (Tag name a cs)) cx
            (v0, TStr, v2)
          = Ok (PStr (join ":" (map text
                                  (findChildren (Tag name a cs) v0 false)))))
    as He by done.
  assert (descendent_value TallyElement (Markup (Tag name a cs)) cx
            (v0, TStr, v2)
          = Ok (PStr (join ":" (map text
                                  (findChildren (Tag name a cs) v0 true)))))
    as Hd by done.
  split; [done|]. split; [done|]. split; [|split].
  - intros H. by rewrite He, H.
  - intros H. by rewrite Hd, H.
  - intros table k self self' Hnd Hin. split; intros Hpass.
    + destruct (for_each_lookup _ _ _ _ _ _ Hnd Hin Hpass) as (x & Hx & ->).
      rewrite He in Hx. by injection Hx as <-.
    + destruct (for_each_lookup _ _ _ _ _ _ Hnd Hin Hpass) as (x & Hx & ->).
      rewrite Hd in Hx. by injection Hx as <-.
Qed.

Lemma str_rule_joins_candidates_witness :
  element_value TallyElement (Markup Samples.names_doc) None
    ("name", TStr, true) = Ok (PStr "Nos:Pcs") /\
  element_value TallyElement (Markup Samples.empty_entry) None
    ("name", TStr, true) = Ok (PStr "") /\
  descendent_value TallyElement (Markup Samples.empty_entry) None
    ("name", TStr, true) = Ok (PStr "") /\
  ({[ "originalname" := PStr ""; "name" := PStr "Nos:Pcs" ]}
     : gmap string pyval) !! "name" = Some (PStr "Nos:Pcs").
Proof.
  destruct (str_rule_joins_candidates "unit" ∅
              (children Samples.names_doc) None "name" true)
    as (H1 & _ & _ & _ & H5).
  destruct (str_rule_joins_candidates "entry" ∅ [] None "name" true)
    as (_ & _ & H3 & H4 & _).
  split; [exact H1|]. split; [apply H3; reflexivity|].
  split; [apply H4; reflexivity|].
  apply (H5 [("name", ("name", TStr, true));
             ("originalname", ("originalname", TStr, false))]
           "name" ∅).
  - apply (bool_decide_unpack _). vm_compute. exact I.
  - left.
  - reflexivity.
Defined.

(** ** Multi-line text *)





(** ** Lists *)

(** C10.  A [lists] rule is a pair: it has no [required] flag, and
    [list_value] has no handler.  The failure of the search itself
    propagates; the exception of the first item whose construction fails
    is the value of the rule; and whenever the construction of some item
    fails, the rule raises, so that neither [None] nor any sequence is
    assigned and no element is built. *)
Theorem list_errors_propagate (s : soup) (cx : context) (v0 : string)
  (v1 : ltype tclass) :
  (forall e, soup_findChildren s (v0 +:+ ".list") true = Raise e ->
     list_value TallyElement s cx (v0, v1) = Raise e) /\
  (forall pre x post e,
     soup_findChildren s (v0 +:+ ".list") true = Ok (pre ++ x :: post) ->
     Forall (fun y => exists b, list_item TallyElement cx v1 y = Ok b) pre ->
     list_item TallyElement cx v1 x = Raise e ->
     list_value TallyElement s cx (v0, v1) = Raise e) /\
  (forall candidates x e,
     soup_findChildren s (v0 +:+ ".list") true = Ok candidates ->
     x ∈ candidates ->
     list_item TallyElement cx v1 x = Raise e ->
     (exists e', list_value TallyElement s cx (v0, v1) = Raise e') /\
     (forall val, list_value TallyElement s cx (v0, v1) <> Ok val) /\
     forall c k, (k, (v0, v1)) ∈ lists c ->
                 exists e', TallyElement c s cx = Raise e').
Proof.
  split; [|split].
  - intros e H. unfold list_value. by rewrite H.
  - intros pre x post e H Hpre Hx. unfold list_value. rewrite H. simpl.
    by rewrite (comprehension_first_raise _ pre post x e).
  - intros candidates x e H Hin Hx.
    assert (exists e', list_value TallyElement s cx (v0, v1) = Raise e')
      as [e' He'].
    { unfold list_value. rewrite H. simpl.
      destruct (comprehension_raise _ _ _ _ Hin Hx) as [e' ->]. eauto. }
    split; [eauto|]. split; [by rewrite He'|].
    intros c k Hc. apply TallyElement_raises. do 2 right. left. eauto 6.
Qed.

Lemma list_errors_propagate_witness :
  list_value TallyElement (PlainText "Pune") None
    ("address", LElement Samples.Address) = Raise AttributeError /\
  list_value TallyElement (Markup Samples.count_items) None
    ("count", LCallable Samples.int_of_node) = Raise ValueError /\
  (exists e, TallyElement
               (TallyElementClass [] [] []
                  [("counts", ("count", LCallable Samples.int_of_node))] [])
               (Markup Samples.count_items) None = Raise e).
Proof.
  destruct (list_errors_propagate (PlainText "Pune") None "address"
              (LElement Samples.Address)) as (H1 & _).
  destruct (list_errors_propagate (Markup Samples.count_items) None "count"
              (LCallable Samples.int_of_node)) as (_ & H2 & H3).
  split; [|split].
  - apply H1. reflexivity.
  - apply (H2 [Samples.leaf "count.list" "1"]
             (Samples.leaf "count.list" "x") []).
    + reflexivity.
    + repeat constructor. by exists (PInt 1).
    + reflexivity.
  - destruct (H3 (children Samples.count_items)
                (Samples.leaf "count.list" "x") ValueError)
      as (_ & _ & Hc).
    + reflexivity.
    + vm_compute. right. left.
    + reflexivity.
    + apply (Hc _ "counts"). left.
Defined.

(** ** Nested elements *)

(** C3, what the code does.  For an [elements] or [descendent_elements]
    rule whose value type is a subclass [c] of [TallyElement], with
    exactly one candidate [c0], the nested element is constructed from
    the text of the candidate, [c0.text], not from the node; the context
    is passed on unchanged.  The [lists] pass constructs each item from
    the candidate node itself.  In an element constructed from text no
    rule finds anything to search: every optional rule resolves to
    [None], every required rule raises [AttributeError], and so does
    every [lists] rule. *)
Theorem nested_element_from_text (name : string) (a : gmap string string)
  (cs : list node) (cx : context) (v0 : string) (c : tclass) (v2 : bool)
  (c0 : node) :
  let doc := Tag name a cs in
  (findChildren doc v0 false = [c0] ->
   elements_try TallyElement (Markup doc) cx (v0, TElement c, v2)
   = TallyElement c (PlainText (text c0)) cx) /\
  (findChildren doc v0 true = [c0] ->
   descendent_try TallyElement (Markup doc) cx (v0, TElement c, v2)
   = TallyElement c (PlainText (text c0)) cx) /\
  list_item TallyElement cx (LElement c) c0 = TallyElement c (Markup c0) cx /\
  (forall (t w0 : string) (w1 : vtype tclass) (w2 : bool)
     (l1 : ltype tclass),
     let missing : res pyval :=
       if w2 then Raise AttributeError else Ok PNone in
     attr_value TallyElement (PlainText t) (w0, w1, w2) = missing /\
     element_value TallyElement (PlainText t) cx (w0, w1, w2) = missing /\
     descendent_value TallyElement (PlainText t) cx (w0, w1, w2) = missing /\
     multiline_value TallyElement (PlainText t) (w0, w1, w2) = missing /\
     list_value TallyElement (PlainText t) cx (w0, l1)
     = Raise AttributeError).
Proof.
  intros doc. subst doc. repeat split.
  - intros H. unfold elements_try. simpl. by rewrite H.
  - intros H. unfold descendent_try. simpl. by rewrite H.
  - by destruct w2.
  - by destruct w2.
  - by destruct w2.
  - by destruct w2.
Qed.

(** At the failing input the required [city] of the nested [Address]
    is looked up in the text ["Pune"], which has no [findChildren]; the
    same nested element is built from the node in the [lists] pass. *)
Lemma nested_element_from_text_witness :
  element_value TallyElement (Markup Samples.party_doc) (Some "ACME")
    ("address", TElement Samples.Address, true) = Raise AttributeError /\
  TallyElement Samples.Party (Markup Samples.party_doc) (Some "ACME")
  = Raise AttributeError /\
  list_value TallyElement (Markup Samples.party_list_doc) (Some "ACME")
    ("address", LElement Samples.Address)
  = Ok (PList [PElement
                 (Markup (Samples.tag "address.list"
                            [Samples.leaf "city" "Pune"]))
                 (Some "ACME") {[ "city" := PStr "Pune" ]}]).
Proof.
  destruct (nested_element_from_text "party" ∅
              (children Samples.party_doc) (Some "ACME") "address"
              Samples.Address true
              (Samples.tag "address" [Samples.leaf "city" "Pune"]))
    as (He & _ & _ & _).
  split; [|split].
  - unfold element_value.
    change (Markup Samples.party_doc)
      with (Markup (Tag "party" ∅ (children Samples.party_doc))).
    rewrite He; reflexivity.
  - reflexivity.
  - reflexivity.
Defined.

(** ** Decimal rules *)

Lemma Decimal_blank (t : string) :
  strip t = "" -> Decimal t = Raise InvalidOperation.
Proof. intros H. unfold Decimal. by rewrite H. Qed.

(** C4, what the code does.  For a rule of type [Decimal] whose unique
    candidate has empty or whitespace-only text: the [elements] pass
    resolves the attribute to [Decimal("0")]; the
    [descendent_elements] pass has no such case and calls [Decimal] on
    the text, which raises [InvalidOperation]: the rule raises when
    required and resolves to [None] when optional. *)
Theorem decimal_blank_text (name : string) (a : gmap string string)
  (cs : list node) (cx : context) (v0 : string) (v2 : bool) (c0 : node) :
  let doc := Tag name a cs in
  strip (text c0) = "" ->
  (findChildren doc v0 false = [c0] ->
   element_value TallyElement (Markup doc) cx (v0, TDecimal, v2)
   = Ok (PDecimal decimal_zero)) /\
  (findChildren doc v0 true = [c0] ->
   descendent_value TallyElement (Markup doc) cx (v0, TDecimal, v2)
   = if v2 then Raise InvalidOperation else Ok PNone).
Proof.
  intros doc Hblank. subst doc. split.
  - intros H. unfold element_value, elements_try. simpl. rewrite H. simpl.
    by rewrite Hblank.
  - intros H. unfold descendent_value, descendent_try. simpl. rewrite H.
    simpl. rewrite (Decimal_blank _ Hblank). by destruct v2.
Qed.

Lemma decimal_blank_text_witness :
  element_value TallyElement (Markup Samples.blank_rate) None
    ("rate", TDecimal, true) = Ok (PDecimal (Finite false 0 0)) /\
  descendent_value TallyElement (Markup Samples.blank_rate) None
    ("closingbalance", TDecimal, true) = Raise InvalidOperation /\
  descendent_value TallyElement (Markup Samples.blank_rate) None
    ("closingbalance", TDecimal, false) = Ok PNone.
Proof.
  destruct (decimal_blank_text "entry" ∅ (children Samples.blank_rate) None
              "rate" true (Samples.leaf "rate" "  ") eq_refl) as (He & _).
  destruct (decimal_blank_text "entry" ∅ (children Samples.blank_rate) None
              "closingbalance" true (Samples.leaf "closingbalance" " ")
              eq_refl) as (_ & Hd).
  destruct (decimal_blank_text "entry" ∅ (children Samples.blank_rate) None
              "closingbalance" false (Samples.leaf "closingbalance" " ")
              eq_refl) as (_ & Hd').
  split; [|split].
  - apply He. reflexivity.
  - apply Hd. reflexivity.
  - apply Hd'. reflexivity.
Defined.

(** ** The report: cache fallback *)

Section ReportFacts.
Import Report.
Variable parse : string -> list node.
Variable cls : report_class.




Lemma cached_keeps_stored (w : world) :
  stored (_acquire_cached_raw_response parse cls w).2 = stored w.
Proof.
  unfold _acquire_cached_raw_response.
  destruct (cachename cls w), (cachefs w) as [fs|]; try done.
  by destruct (fs !! _).
Qed.

Lemma raw_keeps_stored (post : res string) (w : world) :
  stored (_acquire_raw_response parse cls post w).2 = stored w.
Proof.
  unfold _acquire_raw_response, execute.
  destruct (_build_request_body cls); [|done].
  destruct post as [content|e]; simpl.
  - by destruct (cachefs w), (cachename cls w) as [[|]|].
  - by destruct (isinstance e ConnectionError).
Qed.

(** Acquiring the document does not touch the collections. *)
Lemma soup_keeps_stored (post : res string) (w : world) :
  stored (soup parse cls post w).2 = stored w.
Proof.
  unfold soup. destruct (_soup w); [done|].
  pose proof (raw_keeps_stored post w) as Hraw.
  destruct (_acquire_raw_response parse cls post w) as [[?|e] w'];
    simpl in Hraw; [done|].
  destruct (isinstance e TallyNotAvailable); [|done].
  destruct (_ && _); [|done].
  pose proof (cached_keeps_stored w') as Hc.
  destruct (_acquire_cached_raw_response parse cls w') as [[?|e'] w''];
    simpl in *; congruence.
Qed.
End ReportFacts.



(** ** The report: named collections *)

(** C9.  When an access to a collection name returns a mapping, the
    reference is stored on the instance under that name, and a later
    access returns the same reference and leaves everything as it is,
    whatever document the report then holds and whatever the transport
    would answer.  After a first access the reference designates the
    mapping that this access built. *)
Theorem collection_access_is_cached (parse : string -> list node)
  (cls : Report.report_class) (post post' : res string) (w w1 : Report.world)
  (item : string) (r : nat) (doc' : option node) :
  Report.access parse cls post w item = (Ok r, w1) ->
  Report.collections w1 !! item = Some r /\
  Report.access parse cls post' (Report.set_soup doc' w1) item
  = (Ok r, Report.set_soup doc' w1) /\
  (Report.collections w !! item = None ->
   is_Some (Report._content cls !! item) /\
   r = length (Report.heap w) /\
   exists val, Report.heap w1 = Report.heap w ++ [val]).
Proof.
  intros H.
  assert (Report.collections w1 !! item = Some r /\
          (Report.collections w !! item = None ->
           is_Some (Report._content cls !! item) /\
           r = length (Report.heap w) /\
           exists val, Report.heap w1 = Report.heap w ++ [val]))
    as [Hr Hfirst].
  { unfold Report.access in H.
    destruct (Report.collections w !! item) as [r0|] eqn:Hw.
    { injection H as -> ->. done. }
    unfold Report.__getattr__ in H.
    destruct (Report._content cls !! item) as [[tagname factory]|];
      [|discriminate].
    pose proof (soup_keeps_stored parse cls post w) as Hk.
    destruct (Report.soup parse cls post w) as [[doc|e] w']; [|discriminate].
    injection Hk as Hkc Hkh.
    match type of H with
    | match ?b with _ => _ end = _ => destruct b as [val|e]; [|discriminate]
    end.
    unfold Report.store_collection in H. injection H as <- <-. simpl.
    rewrite lookup_insert_eq, Hkh. split; [done|]. intros _.
    split; [eauto|]. split; [done|]. eauto. }
  split; [done|]. split; [|done].
  unfold Report.access. simpl. by rewrite Hr.
Qed.

Lemma collection_access_is_cached_witness :
  let w1 := (Report.access Samples.parse Samples.UnitsReport (Ok "response")
               Samples.fresh "units").2 in
  Report.access Samples.parse Samples.UnitsReport (Raise ConnectionError)
    (Report.set_soup (Some Samples.empty_entry) w1) "units"
  = (Ok 0%nat, Report.set_soup (Some Samples.empty_entry) w1).
Proof.
  intros w1.
  apply (collection_access_is_cached Samples.parse Samples.UnitsReport
           (Ok "response") (Raise ConnectionError) Samples.fresh w1 "units"
           0%nat (Some Samples.empty_entry)).
  vm_compute. reflexivity.
Defined.

(** * Further properties of the extraction engine *)

Lemma TallyElement_ok_inv (c : tclass) (s : soup) (cx : context) (o : pyval) :
  TallyElement c s cx = Ok o ->
  exists d, o = PElement s cx d /\
    _populate TallyElement (elements c) (descendent_elements c) (attrs c)
      (lists c) (multilines c) s cx ∅ = Ok d.
Proof.
  rewrite TallyElement_unfold.
  destruct (_populate _ _ _ _ _ _ _ _ _) as [d|e]; simpl; [|discriminate].
  intros [= <-]. eauto.
Qed.








(** ** Lists keep the order of the document *)

Lemma comprehension_ok_inv {A B : Type} (f : A -> res B) (l : list A)
  (bs : list B) :
  comprehension f l = Ok bs -> Forall2 (fun a b => f a = Ok b) l bs.
Proof.
  revert bs. induction l as [|a l IH]; intros bs; simpl.
  - intros [= <-]. constructor.
  - destruct (f a) as [b|e] eqn:Hfa; simpl; [|discriminate].
    destruct (comprehension f l) as [bs'|e]; simpl; [|discriminate].
    intros [= <-]. constructor; auto.
Qed.

(** X3.  When a [lists] rule on a document node has a value, it is a
    sequence with one item per [<sourceName>.list] node found anywhere
    below the node, in document order; for a subclass of [TallyElement]
    the i-th item is the element built from the i-th node, with the
    context of the owner. *)
Theorem list_items_follow_document_order (name : string)
  (a : gmap string string) (cs : list node) (cx : context) (v0 : string)
  (v1 : ltype tclass) (val : pyval) :
  let doc := Tag name a cs in
  list_value TallyElement (Markup doc) cx (v0, v1) = Ok val ->
  exists items,
    val = PList items /\
    Forall2 (fun c o => list_item TallyElement cx v1 c = Ok o)
      (findChildren doc (v0 +:+ ".list") true) items /\
    (forall cls, v1 = LElement cls ->
       Forall2 (fun c o => exists d, o = PElement (Markup c) cx d)
         (findChildren doc (v0 +:+ ".list") true) items).
Proof.
  intros doc. subst doc. unfold list_value. simpl.
  destruct (comprehension _ _) as [items|e] eqn:Hc; simpl; [|discriminate].
  intros [= <-]. exists items. apply comprehension_ok_inv in Hc.
  split; [done|]. split; [done|].
  intros cls ->. eapply Forall2_impl; [exact Hc|].
  simpl. intros c o Ho. apply TallyElement_ok_inv in Ho as (d & -> & _).
  eauto.
Qed.

Lemma list_items_follow_document_order_witness :
  exists items,
    PList
      [PElement (Markup (Samples.tag "address.list" [Samples.leaf "city" "C"]))
         (Some "ACME") {[ "city" := PStr "C" ]};
       PElement (Markup (Samples.tag "address.list" [Samples.leaf "city" "A"]))
         (Some "ACME") {[ "city" := PStr "A" ]};
       PElement (Markup (Samples.tag "address.list" [Samples.leaf "city" "B"]))
         (Some "ACME") {[ "city" := PStr "B" ]}]
    = PList items /\
    Forall2 (fun c o =>
               list_item TallyElement (Some "ACME")
                 (LElement Samples.Address) c = Ok o)
      (findChildren MoreSamples.items_doc ("address" +:+ ".list") true)
      items /\
    (forall cls, LElement Samples.Address = LElement cls ->
       Forall2 (fun c o => exists d, o = PElement (Markup c) (Some "ACME") d)
         (findChildren MoreSamples.items_doc ("address" +:+ ".list") true)
         items).
Proof.
  apply (list_items_follow_document_order "party" ∅
           (children MoreSamples.items_doc) (Some "ACME") "address"
           (LElement Samples.Address)).
  reflexivity.
Defined.

(** ** Rules that cannot fail *)








(** ** The unit master *)




(** * Further properties of the report *)

(** ** The cache key *)







(** ** Acquisition *)

Section AcquisitionFacts.
Import Report.
Variable parse : string -> list node.
Variable cls : report_class.

Lemma raw_ok_sets_soup (post : res string) (w w' : world) (u : unit) :
  _acquire_raw_response parse cls post w = (Ok u, w') ->
  exists n, _soup w' = Some n.
Proof.
  unfold _acquire_raw_response.
  destruct (_build_request_body cls); [|discriminate].
  destruct (execute parse post (cachename cls w) w) as [[doc|e] w0];
    [|discriminate].
  intros [= _ <-]. simpl. eauto.
Qed.

Lemma cached_ok_sets_soup (w w' : world) (u : unit) :
  _acquire_cached_raw_response parse cls w = (Ok u, w') ->
  exists n, _soup w' = Some n.
Proof.
  unfold _acquire_cached_raw_response.
  destruct (cachename cls w), (cachefs w) as [fs|]; try discriminate.
  destruct (fs !! _); [|discriminate].
  intros [= _ <-]. simpl. eauto.
Qed.

Lemma soup_ok_inv (post : res string) (w w1 : world) (doc : option node) :
  soup parse cls post w = (Ok doc, w1) ->
  exists n, doc = Some n /\ _soup w1 = Some n.
Proof.
  unfold soup. destruct (_soup w) as [n|] eqn:Hs.
  { intros [= <- <-]. eauto. }
  destruct (_acquire_raw_response parse cls post w) as [[u|e] w'] eqn:Hraw.
  { intros [= <- <-]. destruct (raw_ok_sets_soup _ _ _ _ Hraw) as [n Hn].
    rewrite Hn. eauto. }
  destruct (isinstance e TallyNotAvailable); [|discriminate].
  destruct (_ && _); [|discriminate].
  destruct (_acquire_cached_raw_response parse cls w') as [[u|e'] w'']
    eqn:Hc; [|discriminate].
  intros [= <- <-]. destruct (cached_ok_sets_soup _ _ _ Hc) as [n Hn].
  rewrite Hn. eauto.
Qed.

Lemma raw_keeps_company (post : res string) (w : world) :
  _company_name (_acquire_raw_response parse cls post w).2
  = _company_name w.
Proof.
  unfold _acquire_raw_response, execute.
  destruct (_build_request_body cls); [|done].
  destruct post as [content|e]; simpl.
  - by destruct (cachefs w), (cachename cls w) as [[|]|].
  - by destruct (isinstance e ConnectionError).
Qed.

Lemma cached_keeps_company (w : world) :
  _company_name (_acquire_cached_raw_response parse cls w).2
  = _company_name w.
Proof.
  unfold _acquire_cached_raw_response.
  destruct (cachename cls w), (cachefs w) as [fs|]; try done.
  by destruct (fs !! _).
Qed.

Lemma soup_keeps_company (post : res string) (w : world) :
  _company_name (soup parse cls post w).2 = _company_name w.
Proof.
  unfold soup. destruct (_soup w); [done|].
  pose proof (raw_keeps_company post w) as Hraw.
  destruct (_acquire_raw_response parse cls post w) as [[?|e] w'];
    simpl in Hraw; [done|].
  destruct (isinstance e TallyNotAvailable); [|done].
  destruct (_ && _); [|done].
  pose proof (cached_keeps_company w') as Hc.
  destruct (_acquire_cached_raw_response parse cls w') as [[?|e'] w''];
    simpl in *; congruence.
Qed.

Lemma cached_keeps_cachefs (w : world) :
  cachefs (_acquire_cached_raw_response parse cls w).2 = cachefs w.
Proof.
  unfold _acquire_cached_raw_response.
  destruct (cachename cls w), (cachefs w) as [fs|] eqn:Hfs; try done.
  by destruct (fs !! _).
Qed.


End AcquisitionFacts.

(** X7.  The document is acquired once: an access that returns a
    document returns a node, keeps it on the instance, and every later
    access returns the same node and changes nothing (no request, no
    cache access), whatever the transport would do. *)
Theorem soup_is_memoised (parse : string -> list node)
  (cls : Report.report_class) (post post' : res string)
  (w w1 : Report.world) (doc : option node) :
  Report.soup parse cls post w = (Ok doc, w1) ->
  exists n, doc = Some n /\ Report._soup w1 = Some n /\
            Report.soup parse cls post' w1 = (Ok (Some n), w1).
Proof.
  intros H. apply soup_ok_inv in H as (n & -> & Hn).
  exists n. split; [done|]. split; [done|].
  unfold Report.soup. by rewrite Hn.
Qed.

Lemma soup_is_memoised_witness :
  let w1 := (Report.soup Samples.parse Samples.UnitsReport (Ok "response")
               Samples.fresh).2 in
  exists n,
    Some (Report.BeautifulSoup Samples.parse "response") = Some n /\
    Report._soup w1 = Some n /\
    Report.soup Samples.parse Samples.UnitsReport (Raise ConnectionError) w1
    = (Ok (Some n), w1).
Proof.
  intros w1.
  apply (soup_is_memoised Samples.parse Samples.UnitsReport (Ok "response")
           (Raise ConnectionError) Samples.fresh).
  reflexivity.
Defined.



Section CacheFacts.
Import Report.
Variable parse : string -> list node.
Variable cls : report_class.

Lemma raw_raise_keeps_cachefs (e : exn) (w : world) :
  cachefs (_acquire_raw_response parse cls (Raise e) w).2 = cachefs w.
Proof.
  unfold _acquire_raw_response, execute.
  destruct (_build_request_body cls); [|done].
  by destruct (isinstance e ConnectionError).
Qed.

Lemma fallback_keeps_cachefs (r : res unit) (w w' : world) :
  cachefs w' = cachefs w ->
  cachefs
    (match r with
     | Ok _ => (Ok (_soup w'), w')
     | Raise e =>
         if isinstance e TallyNotAvailable then
           if bool_decide (is_Some (cachefs w')) && truthy (cachename cls w')
           then
             match _acquire_cached_raw_response parse cls w' with
             | (Ok _, w'') => (Ok (_soup w''), w'')
             | (Raise e', w'') => (Raise e', w'')
             end
           else (Raise e, w')
         else (Raise e, w')
     end).2 = cachefs w.
Proof.
  intros Hw. destruct r as [u|e]; [done|].
  destruct (isinstance e TallyNotAvailable); [|done].
  destruct (_ && _); [|done].
  pose proof (cached_keeps_cachefs parse cls w') as Hc.
  destruct (_acquire_cached_raw_response parse cls w') as [[?|?] w''];
    simpl in *; congruence.
Qed.

End CacheFacts.

(** X9.  The cache store is written only by a successful acquisition
    and only under the report's own key: an access whose transport
    raises leaves the store as it is, and an access whose transport
    answers either leaves it as it is or adds the response under
    [<cachename>.xml]. *)
Theorem cache_store_written_only_on_success (parse : string -> list node)
  (cls : Report.report_class) (w : Report.world) :
  (forall e,
     Report.cachefs (Report.soup parse cls (Raise e) w).2
     = Report.cachefs w) /\
  (forall content,
     Report.cachefs (Report.soup parse cls (Ok content) w).2
     = Report.cachefs w \/
     exists name fs,
       Report._soup w = None /\
       Report.cachename cls w = Some name /\
       Report.cachefs w = Some fs /\
       Report.cachefs (Report.soup parse cls (Ok content) w).2
       = Some (<[name +:+ ".xml" := content]> fs)).
Proof.
  split.
  - intros e. unfold Report.soup. destruct (Report._soup w); [done|].
    pose proof (raw_raise_keeps_cachefs parse cls e w) as Hraw.
    destruct (Report._acquire_raw_response parse cls (Raise e) w)
      as [r w'].
    by apply fallback_keeps_cachefs.
  - intros content. unfold Report.soup.
    destruct (Report._soup w) eqn:Hs; [by left|].
    unfold Report._acquire_raw_response.
    destruct (Report._build_request_body cls) as [u|e0].
    + unfold Report.execute. simpl.
      destruct (Report.cachefs w) as [fs|] eqn:Hfs; [|left; simpl; done].
      destruct (Report.cachename cls w) as [[|ch name]|] eqn:Hn;
        [left; simpl; done| |left; simpl; done].
      right. exists (String ch name), fs. simpl. by rewrite Hfs.
    + left. by apply (fallback_keeps_cachefs parse cls (Raise e0)).
Qed.



(** ** Named collections *)

(** X11.  An access to a collection that raises stores nothing: the
    collections on the instance and the mappings they refer to are as
    before, so that the next access starts afresh.  An access to a name
    that is neither stored nor declared in [_content] raises
    [AttributeError] and leaves everything as it is: the document is not
    even acquired. *)
Theorem failed_access_stores_nothing (parse : string -> list node)
  (cls : Report.report_class) (post : res string) (w : Report.world)
  (item : string) :
  (forall e w1,
     Report.access parse cls post w item = (Raise e, w1) ->
     Report.stored w1 = Report.stored w) /\
  (Report.collections w !! item = None ->
   Report._content cls !! item = None ->
   Report.access parse cls post w item = (Raise AttributeError, w)).
Proof.
  split.
  - intros e w1. unfold Report.access.
    destruct (Report.collections w !! item); [discriminate|].
    unfold Report.__getattr__.
    destruct (Report._content cls !! item) as [[tagname factory]|];
      [|by intros [= _ <-]].
    pose proof (soup_keeps_stored parse cls post w) as Hk.
    destruct (Report.soup parse cls post w) as [[doc|e0] w'];
      [|by intros [= _ <-]].
    match goal with
    | |- match ?b with _ => _ end = _ -> _ => destruct b as [val|e1]
    end.
    + unfold Report.store_collection. discriminate.
    + by intros [= _ <-].
  - intros Hc Hd. unfold Report.access, Report.__getattr__.
    by rewrite Hc, Hd.
Qed.

Lemma failed_access_stores_nothing_witness :
  Report.stored
    (Report.access Samples.parse Samples.UncachedReport
       (Raise ConnectionError) Samples.fresh "units").2
  = Report.stored Samples.fresh /\
  Report.access Samples.parse Samples.UnitsReport (Ok "response")
    Samples.fresh "ledgers"
  = (Raise AttributeError, Samples.fresh).
Proof.
  destruct (failed_access_stores_nothing Samples.parse Samples.UncachedReport
              (Raise ConnectionError) Samples.fresh "units") as (Hf & _).
  destruct (failed_access_stores_nothing Samples.parse Samples.UnitsReport
              (Ok "response") Samples.fresh "ledgers") as (_ & Hu).
  split.
  - apply (Hf TallyNotAvailable). reflexivity.
  - apply Hu; reflexivity.
Defined.

Lemma ci_lookup_store_eq (k : string) (x : string * pyval)
  (d : Report.cidict) :
  Views.ci_lookup k (Report.ci_store k x d) = Some x.
Proof.
  induction d as [|[k' y] d IH]; simpl.
  - by rewrite String.eqb_refl.
  - destruct (String.eqb k' k) eqn:Hk; simpl; by rewrite Hk.
Qed.

Lemma ci_store_keys_in (k : string) (x : string * pyval)
  (d : Report.cidict) :
  k ∈ d.*1 -> (Report.ci_store k x d).*1 = d.*1.
Proof.
  induction d as [|[k' y] d IH]; simpl.
  - by intros ?%elem_of_nil.
  - destruct (String.eqb k' k) eqn:Hk; simpl; [done|].
    apply String.eqb_neq in Hk.
    intros [?|Hin]%elem_of_cons; [congruence|]. f_equal. by apply IH.
Qed.

Lemma ci_store_keys_fresh (k : string) (x : string * pyval)
  (d : Report.cidict) :
  k ∉ d.*1 -> (Report.ci_store k x d).*1 = d.*1 ++ [k].
Proof.
  induction d as [|[k' y] d IH]; simpl; [done|].
  intros [Hne Hin]%not_elem_of_cons.
  destruct (String.eqb k' k) eqn:Hk; simpl.
  - apply String.eqb_eq in Hk. congruence.
  - f_equal. by apply IH.
Qed.

Lemma ci_store_NoDup (k : string) (x : string * pyval) (d : Report.cidict) :
  NoDup d.*1 -> NoDup (Report.ci_store k x d).*1.
Proof.
  intros Hnd. destruct (decide (k ∈ d.*1)) as [Hin|Hin].
  - by rewrite ci_store_keys_in.
  - rewrite ci_store_keys_fresh by done.
    apply NoDup_app. split; [done|]. split.
    + intros y Hy [->|[]%elem_of_nil]%elem_of_cons. done.
    + apply NoDup_singleton.
Qed.

Lemma ci_store_length (k : string) (x : string * pyval) (d : Report.cidict) :
  (length (Report.ci_store k x d) <= S (length d))%nat.
Proof.
  rewrite <- (length_fmap fst (Report.ci_store k x d)).
  destruct (decide (k ∈ d.*1)) as [Hin|Hin].
  - rewrite ci_store_keys_in, length_fmap by done. lia.
  - rewrite ci_store_keys_fresh, length_app, length_fmap by done.
    simpl. lia.
Qed.

Lemma by_name_app (ys zs : list pyval) (val : Report.cidict) :
  Report.by_name (ys ++ zs) val
  = (v <- Report.by_name ys val ;; Report.by_name zs v).
Proof.
  revert val. induction ys as [|y ys IH]; intros val; simpl; [done|].
  destruct (getattr y "name") as [name|e]; simpl; [|done].
  destruct (Report.ci_setitem name y val) as [val'|e]; simpl; [|done].
  apply IH.
Qed.

Lemma by_name_keys (ys : list pyval) (val0 val : Report.cidict) :
  Report.by_name ys val0 = Ok val -> NoDup val0.*1 ->
  NoDup val.*1 /\ (length val <= length val0 + length ys)%nat.
Proof.
  revert val0. induction ys as [|y ys IH]; intros val0; simpl.
  - intros [= <-] Hnd. split; [done|lia].
  - destruct (getattr y "name") as [[| n | | | | |]|e]; simpl;
      try discriminate.
    intros H Hnd.
    destruct (IH _ H (ci_store_NoDup _ _ _ Hnd)) as [Hnd' Hlen].
    split; [done|].
    pose proof (ci_store_length (lower n) (n, y) val0). lia.
Qed.

(** X12.  The mapping of a collection is keyed by the names in lower
    case: its keys are distinct, it has at most one entry per element,
    and looking up the name of the last element, in any letter case,
    gives that element, also when earlier elements had the same name up
    to case. *)
Theorem collection_keys_ignore_case (ys : list pyval) (y : pyval)
  (n : string) (val : Report.cidict) :
  Report.by_name (ys ++ [y]) [] = Ok val ->
  getattr y "name" = Ok (PStr n) ->
  NoDup val.*1 /\
  (length val <= length (ys ++ [y]))%nat /\
  forall key, lower key = lower n -> Views.ci_getitem key val = Ok y.
Proof.
  intros H Hn.
  destruct (by_name_keys _ _ _ H (NoDup_nil_2 : NoDup ([] : Report.cidict).*1))
    as [Hnd Hlen].
  split; [done|]. split; [simpl in Hlen; lia|].
  intros key Hkey. rewrite by_name_app in H.
  destruct (Report.by_name ys []) as [v|e]; simpl in H; [|discriminate].
  rewrite Hn in H. simpl in H. injection H as <-.
  unfold Views.ci_getitem. by rewrite Hkey, ci_lookup_store_eq.
Qed.

Lemma collection_keys_ignore_case_witness :
  Views.ci_getitem "KG"
    [("kg", ("kg", PElement (PlainText "") None {[ "name" := PStr "kg" ]}))]
  = Ok (PElement (PlainText "") None {[ "name" := PStr "kg" ]}).
Proof.
  assert (Report.by_name
            ([PElement (PlainText "") None {[ "name" := PStr "Kg" ]}]
             ++ [PElement (PlainText "") None {[ "name" := PStr "kg" ]}]) []
          = Ok [("kg", ("kg", PElement (PlainText "") None
                                {[ "name" := PStr "kg" ]}))]) as Hby.
  { vm_compute. reflexivity. }
  destruct (collection_keys_ignore_case _ _ "kg" _ Hby eq_refl)
    as (_ & _ & H).
  apply H. reflexivity.
Defined.

(** X13.  The edges of a first access to a declared collection, once the
    document is held: when a container is configured and the document
    has no such node, the access raises [AttributeError] and stores
    nothing; when the scope (the container, or the whole document if
    none is configured) holds no node of the collection's tag, the access
    stores and returns a new, empty mapping. *)
Theorem collection_edges (parse : string -> list node)
  (cls : Report.report_class) (post : res string) (w : Report.world)
  (item tagname : string) (factory : tclass) (doc : node) :
  Report.collections w !! item = None ->
  Report._content cls !! item = Some (tagname, factory) ->
  Report._soup w = Some doc ->
  let scope :=
    if Report.truthy (Report._container cls)
    then find doc (default "" (Report._container cls)) else Some doc in
  (scope = None ->
   Report.access parse cls post w item = (Raise AttributeError, w)) /\
  (forall n, scope = Some n -> findChildren n tagname true = [] ->
     Report.access parse cls post w item
     = (Ok (length (Report.heap w)), (Report.store_collection item [] w).2)
     /\ (Report.store_collection item [] w).2.(Report.heap)
          !! length (Report.heap w) = Some []).
Proof.
  intros Hc Hd Hs scope. subst scope.
  unfold Report.access, Report.__getattr__, Report.soup.
  rewrite Hc, Hd, Hs. split.
  - destruct (Report.truthy (Report._container cls)); [|discriminate].
    by intros ->.
  - intros n Hn Hf. split.
    + destruct (Report.truthy (Report._container cls)).
      * rewrite Hn. simpl. by rewrite Hf.
      * injection Hn as <-. simpl. by rewrite Hf.
    + simpl. by apply list_lookup_middle.
Qed.

Lemma collection_edges_witness :
  Report.access Samples.parse MoreSamples.MissingContainer
    (Raise ConnectionError) MoreSamples.acquired "units"
  = (Raise AttributeError, MoreSamples.acquired) /\
  (Report.access Samples.parse MoreSamples.NoMatch (Raise ConnectionError)
     MoreSamples.acquired "ledgers").1 = Ok 0%nat.
Proof.
  destruct (collection_edges Samples.parse MoreSamples.MissingContainer
              (Raise ConnectionError) MoreSamples.acquired "units" "unit"
              Samples.Unit (Report.BeautifulSoup Samples.parse "response")
              eq_refl eq_refl eq_refl) as (Hm & _).
  destruct (collection_edges Samples.parse MoreSamples.NoMatch
              (Raise ConnectionError) MoreSamples.acquired "ledgers" "ledger"
              Samples.Unit (Report.BeautifulSoup Samples.parse "response")
              eq_refl eq_refl eq_refl) as (_ & Hn).
  split.
  - apply Hm. reflexivity.
  - destruct (Hn (Samples.tag "body"
                    [Samples.unit_node "Nos" "0"; Samples.unit_node "Kg" "3"])
                eq_refl eq_refl) as [-> _].
    reflexivity.
Defined.

Lemma ci_store_Forall (P : string * (string * pyval) -> Prop) (k : string)
  (x : string * pyval) (d : Report.cidict) :
  P (k, x) -> Forall P d -> Forall P (Report.ci_store k x d).
Proof.
  intros Hx. induction 1 as [|[k' y] d Hy Hd IH]; simpl.
  - by repeat constructor.
  - destruct (String.eqb k' k) eqn:Hk.
    + apply String.eqb_eq in Hk as ->. by constructor.
    + by constructor.
Qed.

(** Every entry of the mapping built from [ys] is one of the [ys] under
    its own name in lower case. *)
Lemma by_name_entries (Q : pyval -> Prop) (ys : list pyval)
  (val0 val : Report.cidict) :
  let P := fun entry : string * (string * pyval) =>
             Q entry.2.2 /\
             getattr entry.2.2 "name" = Ok (PStr entry.2.1) /\
             entry.1 = lower entry.2.1 in
  Forall Q ys -> Forall P val0 ->
  Report.by_name ys val0 = Ok val -> Forall P val.
Proof.
  intros P Hys. revert val0.
  induction Hys as [|y ys Hy _ IH]; intros val0 H0; simpl.
  - by intros [= <-].
  - destruct (getattr y "name") as [[| n | | | | |]|e] eqn:Hn; simpl;
      try discriminate.
    apply IH. apply ci_store_Forall; [|done]. by repeat split.
Qed.

(** X14.  The elements of a collection belong to the report: after a
    first access that returns a mapping, the reference designates that
    mapping, and every entry holds an element whose [company_name] is the
    company of the report and whose [name] attribute, in lower case, is
    the key of the entry. *)
Theorem collection_elements_belong_to_report (parse : string -> list node)
  (cls : Report.report_class) (post : res string) (w w1 : Report.world)
  (item : string) (r : nat) :
  Report.collections w !! item = None ->
  Report.access parse cls post w item = (Ok r, w1) ->
  exists val,
    Report.heap w1 !! r = Some val /\
    Forall (fun entry : string * (string * pyval) =>
              Views.company_name entry.2.2 = Ok (Report._company_name w) /\
              getattr entry.2.2 "name" = Ok (PStr entry.2.1) /\
              entry.1 = lower entry.2.1) val.
Proof.
  intros Hc. unfold Report.access, Report.__getattr__. rewrite Hc.
  destruct (Report._content cls !! item) as [[tagname factory]|];
    [|discriminate].
  pose proof (soup_keeps_company parse cls post w) as Hco.
  destruct (Report.soup parse cls post w) as [[doc|e] w']; [|discriminate].
  simpl in Hco.
  match goal with
  | |- match ?b with _ => _ end = _ -> _ =>
      destruct b as [val|e1] eqn:Hb; [|discriminate]
  end.
  unfold Report.store_collection. intros [= <- <-]. simpl.
  exists val. split; [by apply list_lookup_middle|].
  match type of Hb with
  | (scope <- ?sc ;; _) = _ =>
      destruct sc as [scope|]; simpl in Hb; [|discriminate]
  end.
  match type of Hb with
  | (found <- ?f ;; _) = _ =>
      destruct f as [found|]; simpl in Hb; [|discriminate]
  end.
  destruct (comprehension _ found) as [ys|] eqn:Hys; simpl in Hb;
    [|discriminate].
  apply comprehension_ok_inv in Hys.
  apply (by_name_entries
           (fun y => Views.company_name y = Ok (Report._company_name w))
           ys [] val); [|constructor|done].
  clear Hb. induction Hys as [|x y found ys Hxy _ IH]; constructor; [|done].
  apply TallyElement_ok_inv in Hxy as (d & -> & _). simpl. by rewrite Hco.
Qed.

Lemma collection_elements_belong_to_report_witness :
  exists val,
    Report.heap
      (Report.access Samples.parse Samples.UnitsReport (Ok "response")
         Samples.fresh "units").2 !! 0%nat = Some val /\
    Forall (fun entry : string * (string * pyval) =>
              Views.company_name entry.2.2 = Ok "Acme Traders" /\
              getattr entry.2.2 "name" = Ok (PStr entry.2.1) /\
              entry.1 = lower entry.2.1) val.
Proof.
  apply (collection_elements_belong_to_report Samples.parse
           Samples.UnitsReport (Ok "response") Samples.fresh _ "units").
  - reflexivity.
  - vm_compute. reflexivity.
Defined.


Section AccessFacts.
Import Report.
Variable parse : string -> list node.
Variable cls : report_class.

(** What an access does to the collections and to the mappings: nothing,
    or one new mapping stored under the name. *)
Lemma access_stored (post : res string) (w : world) (item : string) :
  stored (access parse cls post w item).2 = stored w \/
  exists val,
    collections w !! item = None /\
    (access parse cls post w item).1 = Ok (length (heap w)) /\
    stored (access parse cls post w item).2
    = (<[item := length (heap w)]> (collections w), heap w ++ [val]).
Proof.
  unfold access. destruct (collections w !! item) eqn:Hc; [by left|].
  unfold __getattr__.
  destruct (_content cls !! item) as [[tagname factory]|]; [|by left].
  pose proof (soup_keeps_stored parse cls post w) as Hk.
  destruct (soup parse cls post w) as [[doc|e] w']; [|by left].
  match goal with
  | |- context [match ?b with Ok _ => _ | Raise _ => _ end] =>
      destruct b as [val|e1]; [|by left]
  end.
  right. exists val. unfold store_collection. simpl.
  injection Hk as -> ->. done.
Qed.

Lemma held_soup (post : res string) (w : world) (doc : node) :
  _soup w = Some doc -> soup parse cls post w = (Ok (Some doc), w).
Proof. intros H. unfold soup. by rewrite H. Qed.

Lemma access_ok_holds_soup (post : res string) (w w1 : world)
  (item : string) (r : nat) :
  collections w !! item = None ->
  access parse cls post w item = (Ok r, w1) ->
  exists doc, _soup w1 = Some doc.
Proof.
  intros Hc. unfold access, __getattr__. rewrite Hc.
  destruct (_content cls !! item) as [[tagname factory]|]; [|discriminate].
  destruct (soup parse cls post w) as [[doc|e] w'] eqn:Hs; [|discriminate].
  apply soup_ok_inv in Hs as (n & -> & Hn).
  match goal with
  | |- match ?b with _ => _ end = _ -> _ =>
      destruct b as [val|e1]; [|discriminate]
  end.
  unfold store_collection. intros [= _ <-]. simpl. eauto.
Qed.

Lemma access_with_held_soup (post : res string) (w : world) (item : string)
  (doc : node) :
  _soup w = Some doc ->
  trace (access parse cls post w item).2 = trace w /\
  cachefs (access parse cls post w item).2 = cachefs w /\
  _soup (access parse cls post w item).2 = Some doc.
Proof.
  intros Hs. unfold access. destruct (collections w !! item); [done|].
  unfold __getattr__.
  destruct (_content cls !! item) as [[tagname factory]|]; [|done].
  rewrite (held_soup post w doc Hs).
  match goal with
  | |- context [match ?b with Ok _ => _ | Raise _ => _ end] =>
      destruct b as [val|e1]; [|done]
  end.
  done.
Qed.

End AccessFacts.

(** X15.  One exchange serves every collection: after a first access
    that returned a mapping, the report holds its document, and an access
    to any collection name, whatever the transport would do, sends no
    request, does not touch the cache store and keeps the same
    document. *)
Theorem collections_share_one_acquisition (parse : string -> list node)
  (cls : Report.report_class) (post post' : res string)
  (w w1 : Report.world) (item item' : string) (r : nat) :
  Report.collections w !! item = None ->
  Report.access parse cls post w item = (Ok r, w1) ->
  let w2 := (Report.access parse cls post' w1 item').2 in
  Report.trace w2 = Report.trace w1 /\
  Report.cachefs w2 = Report.cachefs w1 /\
  Report._soup w2 = Report._soup w1 /\ is_Some (Report._soup w1).
Proof.
  intros Hc H w2. subst w2.
  destruct (access_ok_holds_soup parse cls post w w1 item r Hc H)
    as [doc Hdoc].
  destruct (access_with_held_soup parse cls post' w1 item' doc Hdoc)
    as (Ht & Hf & Hs).
  rewrite Hdoc. by eauto.
Qed.

Lemma collections_share_one_acquisition_witness :
  let w1 := (Report.access Samples.parse Samples.UnitsReport (Ok "response")
               Samples.fresh "units").2 in
  let w2 := (Report.access Samples.parse Samples.UnitsReport
               (Raise ConnectionError) w1 "ledgers").2 in
  Report.trace w2 = Report.trace w1 /\
  Report.cachefs w2 = Report.cachefs w1 /\
  Report._soup w2 = Report._soup w1 /\ is_Some (Report._soup w1).
Proof.
  intros w1.
  apply (collections_share_one_acquisition Samples.parse Samples.UnitsReport
           (Ok "response") (Raise ConnectionError) Samples.fresh w1
           "units" "ledgers" 0%nat).
  - reflexivity.
  - vm_compute. reflexivity.
Defined.

(** X16.  Mappings are never changed once stored: an access, whatever
    its outcome, leaves every existing mapping in place under the same
    reference, and keeps every stored collection referring to a mapping
    that exists. *)
Theorem stored_mappings_are_stable (parse : string -> list node)
  (cls : Report.report_class) (post : res string) (w : Report.world)
  (item : string) :
  let w1 := (Report.access parse cls post w item).2 in
  (forall r val, Report.heap w !! r = Some val ->
                 Report.heap w1 !! r = Some val) /\
  (forall item' r, Report.collections w !! item' = Some r ->
                   Report.collections w1 !! item' = Some r) /\
  (Views.valid_refs w -> Views.valid_refs w1).
Proof.
  intros w1. subst w1.
  destruct (access_stored parse cls post w item)
    as [Hst|(val & Hc & _ & Hst)]; injection Hst as Hcol Hheap.
  - rewrite Hheap. unfold Views.valid_refs. rewrite Hcol, Hheap. done.
  - rewrite Hheap. unfold Views.valid_refs. rewrite Hcol, Hheap.
    split; [|split].
    + intros r val' Hr. by apply lookup_app_l_Some.
    + intros item' r Hr. rewrite lookup_insert_ne; [done|].
      intros <-. congruence.
    + intros Hv item' r. rewrite length_app. simpl.
      destruct (decide (item = item')) as [<-|Hne].
      * rewrite lookup_insert_eq. intros [= <-]. lia.
      * rewrite lookup_insert_ne by done. intros Hr%Hv. lia.
Qed.

Lemma stored_mappings_are_stable_witness :
  Views.valid_refs
    (Report.access Samples.parse Samples.UnitsReport (Ok "response")
       Samples.fresh "units").2.
Proof.
  apply (stored_mappings_are_stable Samples.parse Samples.UnitsReport
           (Ok "response") Samples.fresh "units").
  intros item r Hr. vm_compute in Hr. discriminate.
Defined.

(** * Properties of the request *)

